(** * Mi Didi Tracker Pro: the trip store of [src/bot.py]

    A shallow embedding of class [DidiTrackerDB] (the SQLite table
    [trips] and its four operations) together with the small part of
    Python and SQLite that the class relies on.

    Conventions of the embedding:
    - Python [float] values (columns of type REAL) are exact rationals
      [Q]; rounding, infinities and NaN are not modelled.  Equalities
      between computed amounts are therefore stated with [==] on [Q].
    - Python [int] values (columns of type INTEGER) are [Z].
    - A Python exception is a value [Raise e] of the [result] type.
      Only exceptions raised by the Python expressions of the class are
      modelled; failures of the storage layer (I/O, binding) are not.
    - [datetime.now()] is a parameter [now] of every operation that
      reads the clock; only its calendar date is kept, because the
      class only formats it with ['%Y-%m-%d'] and shifts it by whole
      days. *)

From Stdlib Require Import ZArith QArith Lia List String Ascii Bool Sorted.
Import ListNotations.

(** * Exceptions *)

Inductive exn : Type :=
| ZeroDivisionError
| OverflowError.

Inductive result (A : Type) : Type :=
| Ok (a : A)
| Raise (e : exn).

Arguments Ok {A} a.
Arguments Raise {A} e.

Definition bind {A B : Type} (m : result A) (k : A -> result B) : result B :=
  match m with
  | Ok a => k a
  | Raise e => Raise e
  end.

Notation "x <- m ;; k" := (bind m (fun x => k))
  (at level 61, m at next level, right associativity).

(** * Python primitives used by the class *)

Module Python.

Open Scope Q_scope.

(** [x / y] on numbers: true division, [ZeroDivisionError] on a zero
    divisor. *)
Definition truediv (x y : Q) : result Q :=
  if Qeq_bool y 0 then Raise ZeroDivisionError else Ok (x / y).

(** [x > y] on numbers. *)
Definition gt (x y : Q) : bool :=
  match x ?= y with
  | Gt => true
  | _ => false
  end.

(** [x or 0] where [x] is a number or [None]: [None] and zero are
    falsy, so the right operand is returned for them. *)
Definition or0 (x : option Q) : Q :=
  match x with
  | None => 0
  | Some q => if Qeq_bool q 0 then 0 else q
  end.

Definition or0_int (n : Z) : Z :=
  if (n =? 0)%Z then 0%Z else n.

End Python.

(** * The part of [datetime] used by the class *)

Module Datetime.

Open Scope Z_scope.

(** A [datetime] object, reduced to its calendar date. *)
Record datetime : Type := mk_datetime { year : Z; month : Z; day : Z }.

Definition MINYEAR : Z := 1.
Definition MAXYEAR : Z := 9999.

Definition is_leap (y : Z) : bool :=
  ((y mod 4 =? 0) && negb (y mod 100 =? 0)) || (y mod 400 =? 0).

Definition days_in_month (y m : Z) : Z :=
  if m =? 2 then (if is_leap y then 29 else 28)
  else if (m =? 4) || (m =? 6) || (m =? 9) || (m =? 11) then 30
  else 31.

(** The invariant of every [datetime] object: a date of the proleptic
    Gregorian calendar between years [MINYEAR] and [MAXYEAR]. *)
Definition valid (d : datetime) : bool :=
  (MINYEAR <=? year d) && (year d <=? MAXYEAR) &&
  (1 <=? month d) && (month d <=? 12) &&
  (1 <=? day d) && (day d <=? days_in_month (year d) (month d)).

(** The calendar date before [d]; leaving the supported range raises
    [OverflowError] ("date value out of range"). *)
Definition prev_day (d : datetime) : result datetime :=
  if 1 <? day d then Ok (mk_datetime (year d) (month d) (day d - 1))
  else if 1 <? month d then
    Ok (mk_datetime (year d) (month d - 1)
                    (days_in_month (year d) (month d - 1)))
  else if MINYEAR <? year d then Ok (mk_datetime (year d - 1) 12 31)
  else Raise OverflowError.

(** [d - timedelta(days=k)] for a day count [k >= 0]: [k] calendar
    days back. *)
Fixpoint sub_days (d : datetime) (k : nat) : result datetime :=
  match k with
  | O => Ok d
  | S k' => d' <- sub_days d k' ;; prev_day d'
  end.

(** Chronological order. *)
Definition compare (a b : datetime) : comparison :=
  match year a ?= year b with
  | Eq => match month a ?= month b with
          | Eq => day a ?= day b
          | c => c
          end
  | c => c
  end.

Definition lt (a b : datetime) : Prop := compare a b = Lt.
Definition le (a b : datetime) : Prop := compare a b <> Gt.

(** One decimal digit as a character. *)
Definition digit (n : Z) : ascii := ascii_of_N (48 + Z.to_N n).

Definition pad2 (n : Z) : string :=
  String (digit (n / 10)) (String (digit (n mod 10)) EmptyString).

Definition pad4 (n : Z) : string :=
  String (digit (n / 1000))
    (String (digit (n / 100 mod 10))
       (String (digit (n / 10 mod 10))
          (String (digit (n mod 10)) EmptyString))).

(** [d.strftime('%Y-%m-%d')]: zero-padded year, month and day.  (The
    C library may leave a year below 1000 unpadded; no system clock
    shows such a year.) *)
Definition strftime_Ymd (d : datetime) : string :=
  (pad4 (year d) ++ "-" ++ pad2 (month d) ++ "-" ++ pad2 (day d))%string.

End Datetime.

(** * The part of SQLite used by the class: the table [trips] *)

Module Sqlite.

Open Scope Z_scope.

(** One row of [trips], with the columns of the CREATE TABLE statement
    of [init_db]. *)
Record trip : Type := mk_trip {
  id : Z;
  user_id : Z;
  user_name : string;
  tariff : Q;
  distance : Q;
  duration : Z;
  per_km : Q;
  per_hour : Q;
  timestamp : string;
  date : string
}.

(** The database file: the rows of [trips] in rowid order, and the
    counter that AUTOINCREMENT keeps in [sqlite_sequence] (the largest
    rowid ever handed out). *)
Record database : Type := mk_database {
  trips : list trip;
  sqlite_sequence : Z
}.

Definition empty : database := mk_database [] 0.

(** [a >= b] on TEXT values: bytewise lexicographic order. *)
Definition text_ge (a b : string) : bool := String.leb b a.

Definition max_rowid (rows : list trip) : Z :=
  fold_right (fun r m => Z.max (id r) m) 0 rows.

(** The rowid AUTOINCREMENT gives to the next row: one more than every
    rowid the table has ever held. *)
Definition next_rowid (db : database) : Z :=
  Z.max (sqlite_sequence db) (max_rowid (trips db)) + 1.

(** INSERT INTO trips (user_id, ..., date) VALUES (...): [id] and
    [timestamp] take their defaults, the latter from SQLite's clock. *)
Definition insert (db : database) (current_timestamp : string)
    (uid : Z) (name : string) (t d : Q) (dur : Z) (pk ph : Q)
    (day : string) : database :=
  let rowid := next_rowid db in
  mk_database
    (trips db ++ [mk_trip rowid uid name t d dur pk ph current_timestamp day])
    rowid.

(** The rows a WHERE clause selects, in scan order. *)
Definition select_where (p : trip -> bool) (db : database) : list trip :=
  filter p (trips db).

(** DELETE FROM trips WHERE p. *)
Definition delete_where (p : trip -> bool) (db : database) : database :=
  mk_database (filter (fun r => negb (p r)) (trips db)) (sqlite_sequence db).

(** Aggregates over the selected rows.  [SUM] and [AVG] are NULL
    ([None]) over no rows; [COUNT] is then 0. *)
Definition COUNT (rows : list trip) : Z := Z.of_nat (List.length rows).

Definition total (col : trip -> Q) (rows : list trip) : Q :=
  fold_left Qplus (map col rows) 0%Q.

Definition SUM (col : trip -> Q) (rows : list trip) : option Q :=
  match rows with
  | [] => None
  | _ :: _ => Some (total col rows)
  end.

Definition AVG (col : trip -> Q) (rows : list trip) : option Q :=
  match rows with
  | [] => None
  | _ :: _ => Some (total col rows / inject_Z (COUNT rows))%Q
  end.

End Sqlite.

(** * class DidiTrackerDB *)

Module DidiTrackerDB.

Import Sqlite.

(** What the methods read from their environment: [datetime.now()]
    and SQLite's CURRENT_TIMESTAMP. *)
Record clock : Type := mk_clock {
  now : Datetime.datetime;
  current_timestamp : string
}.

(** The dictionary returned by the two statistics methods. *)
Record stats : Type := mk_stats {
  trips_count : Z;
  total_money : Q;
  total_distance : Q;
  avg_per_km : Q
}.

(** [init_db]: CREATE TABLE IF NOT EXISTS, on a database file that may
    not exist yet. *)
Definition init_db (file : option database) : database :=
  match file with
  | None => Sqlite.empty
  | Some db => db
  end.

(** Line 81 of [add_trip]:
    [per_km = tariff / distance if distance > 0 else 0]. *)
Definition per_distance_rate (t d : Q) : result Q :=
  if Python.gt d 0 then Python.truediv t d else Ok 0%Q.

(** Line 82 of [add_trip]:
    [per_hour = (tariff / (duration / 60)) if duration > 0 else 0]. *)
Definition per_time_rate (t : Q) (dur : Z) : result Q :=
  if (dur >? 0)%Z then
    hours <- Python.truediv (inject_Z dur) 60 ;;
    Python.truediv t hours
  else Ok 0%Q.

Definition add_trip (c : clock) (db : database) (uid : Z) (name : string)
    (t d : Q) (dur : Z) : result (database * (Q * Q)) :=
  pk <- per_distance_rate t d ;;
  ph <- per_time_rate t dur ;;
  let today := Datetime.strftime_Ymd (now c) in
  Ok (Sqlite.insert db (current_timestamp c) uid name t d dur pk ph today,
      (pk, ph)).

(** The SELECT of both statistics methods, over the rows its WHERE
    clause selected, and the dictionary built from its result. *)
Definition stats_of (rows : list trip) : stats :=
  mk_stats (Python.or0_int (COUNT rows))
           (Python.or0 (SUM tariff rows))
           (Python.or0 (SUM distance rows))
           (Python.or0 (AVG per_km rows)).

(** [date = datetime.now().strftime('%Y-%m-%d')] when [date is None]. *)
Definition date_or_today (c : clock) (day : option string) : string :=
  match day with
  | None => Datetime.strftime_Ymd (now c)
  | Some d => d
  end.

(** WHERE user_id = ? AND date = ? *)
Definition on_day (uid : Z) (day : string) (r : trip) : bool :=
  (user_id r =? uid)%Z && (date r =? day)%string.

(** WHERE user_id = ? AND date >= ? *)
Definition since (uid : Z) (day : string) (r : trip) : bool :=
  (user_id r =? uid)%Z && text_ge (date r) day.

Definition get_daily_stats (c : clock) (db : database) (uid : Z)
    (day : option string) : stats :=
  let day := date_or_today c day in
  stats_of (select_where (on_day uid day) db).

Definition get_weekly_stats (c : clock) (db : database) (uid : Z)
    : result stats :=
  d <- Datetime.sub_days (now c) 7 ;;
  let week_ago := Datetime.strftime_Ymd d in
  Ok (stats_of (select_where (since uid week_ago) db)).

Definition delete_daily_trips (c : clock) (db : database) (uid : Z)
    (day : option string) : database :=
  let day := date_or_today c day in
  delete_where (on_day uid day) db.

(** ** The methods as transitions of the database *)

Inductive call : Type :=
| AddTrip (uid : Z) (name : string) (t d : Q) (dur : Z)
| GetDailyStats (uid : Z) (day : option string)
| GetWeeklyStats (uid : Z)
| DeleteDailyTrips (uid : Z) (day : option string).

Inductive reply : Type :=
| Rates (pk ph : Q)
| Stats (s : stats)
| Done.

Definition run (c : clock) (m : call) (db : database)
    : result (database * reply) :=
  match m with
  | AddTrip uid name t d dur =>
      r <- add_trip c db uid name t d dur ;;
      Ok (fst r, Rates (fst (snd r)) (snd (snd r)))
  | GetDailyStats uid day => Ok (db, Stats (get_daily_stats c db uid day))
  | GetWeeklyStats uid =>
      s <- get_weekly_stats c db uid ;;
      Ok (db, Stats s)
  | DeleteDailyTrips uid day => Ok (delete_daily_trips c db uid day, Done)
  end.

(** The databases the class can build: from a fresh file, by calls of
    its methods that return. *)
Inductive reachable : database -> Prop :=
| reachable_init : reachable (init_db None)
| reachable_run c m db db' r :
    reachable db -> run c m db = Ok (db', r) -> reachable db'.

(** The row invariant of the derived columns. *)
Definition rates_stored (r : trip) : Prop :=
  per_distance_rate (tariff r) (distance r) = Ok (per_km r) /\
  per_time_rate (tariff r) (duration r) = Ok (per_hour r).

(** ** Integers outside 64 bits

    [tariff] and [distance] are finite numbers throughout; [user_id]
    and [duration] are Python integers, which have no bound, while an
    INTEGER column holds a signed 64-bit integer: sqlite3 refuses to
    bind any other integer with [OverflowError], before the INSERT
    runs.  (A positive duration too large for a float is refused even
    earlier, by [duration / 60], with the same exception.)
    [call_add_trip] is [add_trip] with this refusal; [add_trip] above
    is the method on the integers that can be stored.  A call that
    returns returns what [add_trip] returns, so the databases built
    through [add_trip] include every database the class can build. *)

Definition fits_integer (n : Z) : bool :=
  ((- 2 ^ 63 <=? n) && (n <? 2 ^ 63))%Z.

Definition call_add_trip (c : clock) (db : database) (uid : Z)
    (name : string) (t d : Q) (dur : Z) : result (database * (Q * Q)) :=
  if fits_integer uid && fits_integer dur
  then add_trip c db uid name t d dur
  else Raise OverflowError.

(** The formulas of the two derived columns, written out:
    [per_km] is [tariff / distance] for a positive distance and [0]
    otherwise; [per_hour] is [tariff / (duration / 60)] for a positive
    duration and [0] otherwise. *)
Definition rates_by_formula (r : trip) : Prop :=
  ((0 < distance r)%Q -> per_km r = (tariff r / distance r)%Q) /\
  ((distance r <= 0)%Q -> per_km r = 0%Q) /\
  ((0 < duration r)%Z ->
   per_hour r = (tariff r / (inject_Z (duration r) / 60))%Q) /\
  ((duration r <= 0)%Z -> per_hour r = 0%Q).

End DidiTrackerDB.

(** * Notions used to state the properties of the class *)

Module Notions.

Import Sqlite DidiTrackerDB.

(** The sum and the arithmetic mean of a list of amounts. *)
Definition sum_list (l : list Q) : Q := fold_right Qplus 0%Q l.

Definition mean (l : list Q) : Q :=
  (sum_list l / inject_Z (Z.of_nat (List.length l)))%Q.

(** The aggregate over no trips. *)
Definition no_stats : stats := mk_stats 0 0 0 0.

(** The arguments of one call of [add_trip] for a given user, and the
    clock at the time of the call. *)
Record trip_input : Type := mk_input {
  at_clock : clock;
  in_name : string;
  in_tariff : Q;
  in_distance : Q;
  in_duration : Z
}.

(** A sequence of calls of [add_trip] for one user; the rates each
    call returned, in order. *)
Fixpoint add_trips (db : database) (uid : Z) (l : list trip_input)
    : result (database * list (Q * Q)) :=
  match l with
  | [] => Ok (db, [])
  | i :: l' =>
      r <- add_trip (at_clock i) db uid (in_name i) (in_tariff i)
             (in_distance i) (in_duration i) ;;
      r' <- add_trips (fst r) uid l' ;;
      Ok (fst r', snd r :: snd r')
  end.

(** Every call of the sequence is made on the date [day]. *)
Definition all_on_day (day : string) (l : list trip_input) : Prop :=
  Forall (fun i => Datetime.strftime_Ymd (now (at_clock i)) = day) l.

(** ** Sample values *)

(** A clock on a given date, at 15:00. *)
Definition clock_on (y m d : Z) : clock :=
  mk_clock (Datetime.mk_datetime y m d)
           (Datetime.strftime_Ymd (Datetime.mk_datetime y m d) ++ " 15:00:00").

Definition today : clock := clock_on 2026 11 3.
Definition yesterday : clock := clock_on 2026 11 2.
Definition six_days_ago : clock := clock_on 2026 10 28.
Definition seven_days_ago : clock := clock_on 2026 10 27.
Definition eight_days_ago : clock := clock_on 2026 10 26.

(** The database after one more call of [add_trip]. *)
Definition added (c : clock) (uid : Z) (name : string) (t d : Q) (dur : Z)
    (db : database) : database :=
  match add_trip c db uid name t d dur with
  | Ok r => fst r
  | Raise _ => db
  end.

(** Two calls of [add_trip] made today. *)
Definition two_trips : list trip_input :=
  [mk_input today "ana" 1000 5 12; mk_input today "ana" 2000 10 25].

(** One trip of user 1, entered on the date of the clock [c]. *)
Definition one_trip (c : clock) : database :=
  added c 1 "ana" 5200 14 28 (init_db None).

(** A trip of user 1 entered yesterday, then a trip of user 1 and one
    of user 2 entered today. *)
Definition three_trips : database :=
  added today 2 "luis" 2000 10 25
    (added today 1 "ana" 1000 5 12
       (added yesterday 1 "ana" 3000 10 20 (init_db None))).

(** Two trips of user 1, entered 8 and 6 days before today, and the
    rows they are stored as. *)
Definition old_trips : database :=
  added six_days_ago 1 "ana" 1000 5 12
    (added eight_days_ago 1 "ana" 3000 10 20 (init_db None)).

Definition trip_of_eight_days_ago : trip :=
  mk_trip 1 1 "ana" 3000 10 20 (3000 # 10) (180000 # 20)
          "2026-10-26 15:00:00" "2026-10-26".

Definition trip_of_six_days_ago : trip :=
  mk_trip 2 1 "ana" 1000 5 12 (1000 # 5) (60000 # 12)
          "2026-10-28 15:00:00" "2026-10-28".

End Notions.

(** * Notions used to state further properties of the class *)

Module Laws.

Import Sqlite DidiTrackerDB.

(** The rowids of a table are in order: positive, strictly increasing
    along the table, and none above the AUTOINCREMENT counter. *)
Definition rowids_ok (db : database) : Prop :=
  StronglySorted Z.lt (map id (trips db)) /\
  Forall (fun r => (0 < id r <= sqlite_sequence db)%Z) (trips db).

(** The databases the class builds under a clock that shows valid
    dates and never runs backwards; the first argument is the date of
    the last call. *)
Inductive history : Datetime.datetime -> database -> Prop :=
| history_init d :
    Datetime.valid d = true -> history d (init_db None)
| history_run d c m db db' r :
    history d db -> Datetime.valid (now c) = true ->
    Datetime.le d (now c) ->
    run c m db = Ok (db', r) -> history (now c) db'.

(** A row dated with a well-formed date, not after [d]. *)
Definition dated_until (d : Datetime.datetime) (r : trip) : Prop :=
  exists x, Datetime.valid x = true /\ date r = Datetime.strftime_Ymd x /\
            Datetime.le x d.

(** The dates of [d] and of the [n - 1] days before it, as
    [add_trip] stores them. *)
Fixpoint days_back (d : Datetime.datetime) (n : nat) : list string :=
  match n with
  | O => []
  | S n' =>
      days_back d n' ++
      match Datetime.sub_days d n' with
      | Ok x => [Datetime.strftime_Ymd x]
      | Raise _ => []
      end
  end.

Definition sum_Z (l : list Z) : Z := fold_right Z.add 0%Z l.

(** A row selected by [p] is selected by [q day] for exactly one [day]
    of the list, and a row not selected by [p] for none. *)
Definition splits {A B : Type} (p : A -> bool) (q : B -> A -> bool)
    (days : list B) (r : A) : Prop :=
  List.length (filter (fun day => q day r) days) =
  if p r then 1%nat else 0%nat.

End Laws.

(** * The command handlers of the bot

    The functions [start], [add_trip], [stats], [week_stats] and
    [reset_data] of the source, which serve the commands registered in
    [main].  A handler reads the sender and the arguments of the
    command, calls the global [db] and sends one reply.  Here a handler
    takes the database and returns it with the reply; the text of a
    reply is represented by its template and the values it displays.
    The conversions [float(...)] and [int(...)] of an argument ([None]
    for [ValueError]) and the constant [META_PER_KM] are parameters;
    [float] is taken to return finite numbers only (the arguments
    ["inf"] and ["nan"] are outside the embedding). *)

Module Bot.

Import Sqlite DidiTrackerDB.

(** [update.effective_user]. *)
Record effective_user : Type := mk_user {
  id : Z;
  username : option string;
  first_name : string
}.

(** The replies, one constructor per text of the source. *)
Inductive message : Type :=
| Welcome (meta : Z)
| BadFormat
| NotPositive
| TripRegistered (met : bool) (t d : Q) (dur : Z) (pk ph : Q)
| BadValues
| AddFailed
| NoTripsToday
| TodayStats (met : bool) (s : stats)
| NoTripsThisWeek
| WeekStats (met : bool) (s : stats)
| StatsFailed
| ConfirmRequired
| TodayDeleted
| ResetFailed.

(** [x <= 0] and [x >= meta] on numbers. *)
Definition le0 (x : Q) : bool := Qle_bool x 0.

Definition ge (x : Q) (meta : Z) : bool := Qle_bool (inject_Z meta) x.

(** [username or first_name]: an absent or empty username is falsy. *)
Definition display_name (u : effective_user) : string :=
  match username u with
  | None => first_name u
  | Some s => if (s =? "")%string then first_name u else s
  end.

(** [s.lower()], on ASCII letters.  (Other characters are left as they
    are; none of them lowercases to a letter of ["confirm"], the only
    string a lowercased argument is compared with.) *)
Definition lower_char (a : ascii) : ascii :=
  let n := N_of_ascii a in
  if ((65 <=? n) && (n <=? 90))%N then ascii_of_N (n + 32) else a.

Fixpoint lower (s : string) : string :=
  match s with
  | EmptyString => EmptyString
  | String a s' => String (lower_char a) (lower s')
  end.

Section Handlers.

Variable float : string -> option Q.
Variable int : string -> option Z.
Variable META_PER_KM : Z.

Definition start : message := Welcome META_PER_KM.

Definition add_trip (c : clock) (db : database) (u : effective_user)
    (args : list string) : database * message :=
  if negb (List.length args =? 3)%nat then (db, BadFormat)
  else
    match float (nth 0 args ""%string), float (nth 1 args ""%string),
          int (nth 2 args ""%string) with
    | Some t, Some d, Some dur =>
        if le0 t || le0 d || (dur <=? 0)%Z then (db, NotPositive)
        else
          match call_add_trip c db (id u) (display_name u) t d dur with
          | Ok (db', (pk, ph)) =>
              (db', TripRegistered (ge pk META_PER_KM) t d dur pk ph)
          | Raise _ => (db, AddFailed)
          end
    | _, _, _ => (db, BadValues)
    end.

Definition stats (c : clock) (db : database) (u : effective_user)
    : message :=
  let stats_data := get_daily_stats c db (id u) None in
  if (trips_count stats_data =? 0)%Z then NoTripsToday
  else TodayStats (ge (avg_per_km stats_data) META_PER_KM) stats_data.

Definition week_stats (c : clock) (db : database) (u : effective_user)
    : message :=
  match get_weekly_stats c db (id u) with
  | Ok stats_data =>
      if (trips_count stats_data =? 0)%Z then NoTripsThisWeek
      else WeekStats (ge (avg_per_km stats_data) META_PER_KM) stats_data
  | Raise _ => StatsFailed
  end.

Definition reset_data (c : clock) (db : database) (u : effective_user)
    (args : list string) : database * message :=
  if (List.length args =? 0)%nat
     || negb (lower (nth 0 args ""%string) =? "confirm")%string
  then (db, ConfirmRequired)
  else (delete_daily_trips c db (id u) None, TodayDeleted).

(** The commands [main] registers, and the handler of each. *)
Inductive command : Type :=
| CmdStart
| CmdAdd
| CmdStats
| CmdWeek
| CmdReset.

Definition handle (cmd : command) (c : clock) (db : database)
    (u : effective_user) (args : list string) : database * message :=
  match cmd with
  | CmdStart => (db, start)
  | CmdAdd => add_trip c db u args
  | CmdStats => (db, stats c db u)
  | CmdWeek => (db, week_stats c db u)
  | CmdReset => reset_data c db u args
  end.

End Handlers.

(** ** Sample values *)

(** A conversion that reads a string of decimal digits. *)
Fixpoint digits_value (s : string) (acc : Z) : option Z :=
  match s with
  | EmptyString => Some acc
  | String a s' =>
      let n := N_of_ascii a in
      if ((48 <=? n) && (n <=? 57))%N
      then digits_value s' (10 * acc + Z.of_N (n - 48))
      else None
  end.

Definition sample_int (s : string) : option Z :=
  match s with
  | EmptyString => None
  | _ => digits_value s 0
  end.

Definition sample_float (s : string) : option Q :=
  option_map inject_Z (sample_int s).

Definition ana : effective_user := mk_user 1 (Some "ana"%string) "Ana".
Definition luis : effective_user := mk_user 2 None "Luis".

End Bot.

(** * Facts about the Python primitives *)

Module PythonFacts.

Import Python.
Open Scope Q_scope.

Lemma gt_spec (x y : Q) : gt x y = true <-> y < x.
Proof.
  unfold gt. rewrite (Qgt_alt x y).
  destruct (x ?= y); split; congruence.
Qed.

Lemma gt_false (x y : Q) : gt x y = false <-> x <= y.
Proof.
  unfold gt. rewrite (Qle_alt x y).
  destruct (x ?= y); split; congruence.
Qed.

Lemma truediv_nonzero (x y : Q) : ~ y == 0 -> truediv x y = Ok (x / y).
Proof.
  intros Hy. unfold truediv.
  destruct (Qeq_bool y 0) eqn:E; [|reflexivity].
  apply Qeq_bool_eq in E. contradiction.
Qed.

Lemma or0_Some (q : Q) : or0 (Some q) == q.
Proof.
  unfold or0. destruct (Qeq_bool q 0) eqn:E; [|reflexivity].
  apply Qeq_bool_eq in E. symmetry. exact E.
Qed.

Lemma or0_int_id (n : Z) : or0_int n = n.
Proof.
  unfold or0_int. destruct (Z.eqb_spec n 0); congruence.
Qed.

End PythonFacts.

(** * Facts about the calendar *)

Module DatetimeFacts.

Import Datetime.
Open Scope Z_scope.


Lemma days_in_month_bounds (y m : Z) : 28 <= days_in_month y m <= 31.
Proof.
  unfold days_in_month.
  destruct (m =? 2); [destruct (is_leap y); lia|].
  destruct ((m =? 4) || (m =? 6) || (m =? 9) || (m =? 11))%bool; lia.
Qed.

Lemma valid_spec (d : datetime) :
  valid d = true <->
  1 <= year d <= 9999 /\ 1 <= month d <= 12 /\
  1 <= day d <= days_in_month (year d) (month d).
Proof.
  unfold valid, MINYEAR, MAXYEAR.
  rewrite !andb_true_iff, !Z.leb_le. tauto.
Qed.

Lemma compare_refl (a : datetime) : compare a a = Eq.
Proof. unfold compare. now rewrite !Z.compare_refl. Qed.

Lemma compare_eq (a b : datetime) : compare a b = Eq -> a = b.
Proof.
  destruct a as [ya ma da], b as [yb mb db]. unfold compare. simpl.
  destruct (Z.compare_spec ya yb); try discriminate.
  destruct (Z.compare_spec ma mb); try discriminate.
  destruct (Z.compare_spec da db); try discriminate.
  intros _. congruence.
Qed.

Lemma compare_antisym (a b : datetime) :
  compare b a = CompOpp (compare a b).
Proof.
  unfold compare.
  rewrite (Z.compare_antisym (year a) (year b)).
  rewrite (Z.compare_antisym (month a) (month b)).
  rewrite (Z.compare_antisym (day a) (day b)).
  destruct (year a ?= year b); simpl; try reflexivity.
  destruct (month a ?= month b); simpl; reflexivity.
Qed.

Ltac order_cases :=
  unfold lt, le, compare in *; simpl in *;
  repeat match goal with
         | H : context [?x ?= ?y] |- _ =>
             destruct (Z.compare_spec x y); simpl in H
         | |- context [?x ?= ?y] =>
             destruct (Z.compare_spec x y); simpl
         end;
  try congruence; try lia.

Lemma lt_trans (a b c : datetime) : lt a b -> lt b c -> lt a c.
Proof. destruct a, b, c. intros H1 H2. order_cases. Qed.

Lemma le_lt_trans (a b c : datetime) : le a b -> lt b c -> lt a c.
Proof. destruct a, b, c. intros H1 H2. order_cases. Qed.

Lemma lt_le_incl (a b : datetime) : lt a b -> le a b.
Proof. unfold lt, le. congruence. Qed.

Lemma lt_not_le (a b : datetime) : lt a b -> ~ le b a.
Proof.
  unfold lt, le. intros H. rewrite (compare_antisym a b), H. simpl. tauto.
Qed.

Lemma le_refl (a : datetime) : le a a.
Proof. unfold le. rewrite compare_refl. discriminate. Qed.

Ltac div_lia := Z.div_mod_to_equations; lia.

Ltac compare_cases :=
  repeat (match goal with
          | |- context [?x ?= ?y] => destruct (Z.compare_spec x y)
          end; cbv iota).

(** ** [strftime('%Y-%m-%d')] turns chronological order into text order *)

Lemma digit_compare (a b : Z) :
  0 <= a < 10 -> 0 <= b < 10 -> Ascii.compare (digit a) (digit b) = (a ?= b).
Proof.
  intros Ha Hb. unfold Ascii.compare, digit.
  rewrite !N_ascii_embedding by lia.
  rewrite <- N2Z.inj_compare, !N2Z.inj_add, !Z2N.id by lia.
  apply Z.add_compare_mono_l.
Qed.

Lemma string_compare_cons (c1 c2 : ascii) (s1 s2 : string) :
  String.compare (String c1 s1) (String c2 s2) =
  match Ascii.compare c1 c2 with
  | Eq => String.compare s1 s2
  | ne => ne
  end.
Proof. reflexivity. Qed.

Lemma dash_compare (s1 s2 : string) :
  String.compare ("-" ++ s1) ("-" ++ s2) = String.compare s1 s2.
Proof. reflexivity. Qed.

Lemma pad2_compare (a b : Z) (k1 k2 : string) :
  0 <= a < 100 -> 0 <= b < 100 ->
  String.compare (pad2 a ++ k1) (pad2 b ++ k2) =
  match a ?= b with Eq => String.compare k1 k2 | c => c end.
Proof.
  intros Ha Hb. unfold pad2. simpl append.
  rewrite !string_compare_cons, !digit_compare by div_lia.
  compare_cases; try reflexivity; div_lia.
Qed.

Lemma pad4_compare (a b : Z) (k1 k2 : string) :
  0 <= a < 10000 -> 0 <= b < 10000 ->
  String.compare (pad4 a ++ k1) (pad4 b ++ k2) =
  match a ?= b with Eq => String.compare k1 k2 | c => c end.
Proof.
  intros Ha Hb. unfold pad4. simpl append.
  rewrite !string_compare_cons, !digit_compare by div_lia.
  compare_cases; try reflexivity; div_lia.
Qed.

Lemma strftime_compare (a b : datetime) :
  valid a = true -> valid b = true ->
  String.compare (strftime_Ymd a) (strftime_Ymd b) = compare a b.
Proof.
  intros Ha Hb. apply valid_spec in Ha. apply valid_spec in Hb.
  pose proof (days_in_month_bounds (year a) (month a)).
  pose proof (days_in_month_bounds (year b) (month b)).
  unfold strftime_Ymd, compare.
  rewrite pad4_compare by lia.
  destruct (year a ?= year b); try reflexivity.
  rewrite dash_compare, pad2_compare by lia.
  destruct (month a ?= month b); try reflexivity.
  rewrite dash_compare.
  change (pad2 (day a)) with (pad2 (day a) ++ "")%string.
  change (pad2 (day b)) with (pad2 (day b) ++ "")%string.
  rewrite pad2_compare by lia.
  destruct (day a ?= day b); reflexivity.
Qed.

Lemma strftime_inj (a b : datetime) :
  valid a = true -> valid b = true ->
  strftime_Ymd a = strftime_Ymd b -> a = b.
Proof.
  intros Ha Hb E. apply compare_eq.
  rewrite <- (strftime_compare a b Ha Hb), E.
  destruct (String.compare (strftime_Ymd b) (strftime_Ymd b)) eqn:C;
    [reflexivity| |];
    pose proof (String.compare_antisym (strftime_Ymd b) (strftime_Ymd b)) as S;
    rewrite C in S; discriminate.
Qed.

(** ** Stepping back through the calendar *)

Lemma prev_day_valid (d d' : datetime) :
  valid d = true -> prev_day d = Ok d' -> valid d' = true.
Proof.
  intros Hd. rewrite !valid_spec in *. unfold prev_day, MINYEAR.
  destruct (Z.ltb_spec 1 (day d)).
  { intros [= <-]. simpl. lia. }
  destruct (Z.ltb_spec 1 (month d)).
  { intros [= <-]. simpl.
    pose proof (days_in_month_bounds (year d) (month d - 1)). lia. }
  destruct (Z.ltb_spec 1 (year d)); [|discriminate].
  intros [= <-]. simpl. unfold days_in_month. simpl. lia.
Qed.

Lemma prev_day_lt (d d' : datetime) :
  valid d = true -> prev_day d = Ok d' -> lt d' d.
Proof.
  intros Hd. rewrite valid_spec in Hd. unfold prev_day, MINYEAR.
  destruct (Z.ltb_spec 1 (day d)); [intros [= <-]; order_cases|].
  destruct (Z.ltb_spec 1 (month d)); [intros [= <-]; order_cases|].
  destruct (Z.ltb_spec 1 (year d)); [|discriminate].
  intros [= <-]; order_cases.
Qed.

(** No date lies strictly between a date and the one before it. *)
Lemma prev_day_dense (d d' x : datetime) :
  valid d = true -> valid x = true -> prev_day d = Ok d' ->
  lt x d -> le x d'.
Proof.
  intros Hd Hx. rewrite valid_spec in Hd, Hx. unfold prev_day, MINYEAR.
  destruct (Z.ltb_spec 1 (day d)); [intros [= <-]; intros; order_cases|].
  destruct (Z.ltb_spec 1 (month d)).
  { intros [= <-]; intros; order_cases.
    replace (month x) with (month d - 1) in * by lia.
    replace (year x) with (year d) in * by lia. lia. }
  destruct (Z.ltb_spec 1 (year d)); [|discriminate].
  intros [= <-]; intros.
  pose proof (days_in_month_bounds (year x) (month x)).
  order_cases.
Qed.

Lemma sub_days_S (d b : datetime) (k : nat) :
  sub_days d (S k) = Ok b ->
  exists a, sub_days d k = Ok a /\ prev_day a = Ok b.
Proof.
  simpl. destruct (sub_days d k) as [a|e]; simpl; [|discriminate].
  intros H. exists a. split; [reflexivity|exact H].
Qed.

Lemma sub_days_valid (d a : datetime) (k : nat) :
  valid d = true -> sub_days d k = Ok a -> valid a = true.
Proof.
  intros Hd. revert a. induction k as [|k IH]; intros a.
  - simpl. intros [= <-]. exact Hd.
  - intros H. apply sub_days_S in H. destruct H as (a' & H1 & H2).
    eapply prev_day_valid; [apply (IH a' H1)|exact H2].
Qed.

(** Up to a month back from a date after year 1: no overflow. *)
Lemma sub_days_ok (d : datetime) (k : nat) :
  valid d = true -> 2 <= year d -> (k <= 31)%nat ->
  exists a, sub_days d k = Ok a.
Proof.
  intros Hd Hy Hk.
  enough (exists a, sub_days d k = Ok a /\
            (2 <= year a \/ (month a = 12 /\ 32 - Z.of_nat k <= day a)))
    as (a & Ha & _) by (exists a; exact Ha).
  induction k as [|k IH].
  - exists d. split; [reflexivity|left; exact Hy].
  - destruct IH as (a & Ha & Inv); [lia|].
    pose proof (sub_days_valid d a k Hd Ha) as Va. rewrite valid_spec in Va.
    cbn [sub_days]. rewrite Ha. cbn [bind]. unfold prev_day, MINYEAR.
    destruct (Z.ltb_spec 1 (day a));
      [eexists; split; [reflexivity|cbn [year month day]; lia]|].
    destruct (Z.ltb_spec 1 (month a));
      [eexists; split; [reflexivity|cbn [year month day]; lia]|].
    destruct (Z.ltb_spec 1 (year a));
      [eexists; split; [reflexivity|cbn [year month day]; lia]|].
    lia.
Qed.

Lemma sub_days_lt (d a b : datetime) (j k : nat) :
  valid d = true -> (j < k)%nat ->
  sub_days d j = Ok a -> sub_days d k = Ok b -> lt b a.
Proof.
  intros Hd Hjk Ha. revert b. induction k as [|k IH]; intros b Hb; [lia|].
  apply sub_days_S in Hb. destruct Hb as (c & Hc & Hb).
  pose proof (sub_days_valid d c k Hd Hc) as Vc.
  pose proof (prev_day_lt c b Vc Hb) as Hlt.
  destruct (Nat.eq_dec j k) as [->|Hne].
  - rewrite Ha in Hc. injection Hc as <-. exact Hlt.
  - eapply lt_trans; [exact Hlt|]. apply IH; [lia|exact Hc].
Qed.

(** The dates from [k] days before [d] on: [d] minus [0..k] days, and
    the dates after [d]. *)
Lemma sub_days_window (d w x : datetime) (k : nat) :
  valid d = true -> valid x = true -> sub_days d k = Ok w ->
  (le w x <-> lt d x \/ exists j, (j <= k)%nat /\ sub_days d j = Ok x).
Proof.
  intros Hd Hx. revert w. induction k as [|k IH]; intros w Hw.
  - simpl in Hw. injection Hw as <-. split.
    + intros H. unfold le in H. destruct (compare d x) eqn:C.
      * right. exists 0%nat. split; [lia|]. simpl. f_equal. now apply compare_eq.
      * left. exact C.
      * contradiction.
    + intros [H|(j & Hj & H)]; [now apply lt_le_incl|].
      assert (j = 0)%nat by lia. subst j. simpl in H. injection H as <-.
      apply le_refl.
  - pose proof Hw as Hw'. apply sub_days_S in Hw'.
    destruct Hw' as (a & Ha & Hp).
    pose proof (sub_days_valid d a k Hd Ha) as Va.
    specialize (IH a Ha). split.
    + intros H. destruct (compare a x) eqn:C.
      * apply compare_eq in C. subst x. right. exists k. split; [lia|exact Ha].
      * assert (le a x) as L by (unfold le; congruence).
        apply IH in L. destruct L as [L|(j & Hj & L)]; [left; exact L|].
        right. exists j. split; [lia|exact L].
      * assert (lt x a) as L
          by (unfold lt; rewrite (compare_antisym a x), C; reflexivity).
        pose proof (prev_day_dense a w x Va Hx Hp L) as L'.
        unfold le in H, L'. rewrite (compare_antisym w x) in L'.
        destruct (compare w x) eqn:C'; simpl in L'; try congruence.
        apply compare_eq in C'. subst x.
        right. exists (S k). split; [lia|exact Hw].
    + intros [H|(j & Hj & H)].
      * apply lt_le_incl. eapply lt_trans; [|exact H].
        eapply le_lt_trans; [apply le_refl|].
        apply (sub_days_lt d d w 0 (S k)); [exact Hd|lia|reflexivity|exact Hw].
      * destruct (Nat.eq_dec j (S k)) as [->|Hne].
        -- rewrite Hw in H. injection H as <-. apply le_refl.
        -- apply lt_le_incl.
           apply (sub_days_lt d x w j (S k)); [exact Hd|lia|exact H|exact Hw].
Qed.

End DatetimeFacts.

(** * Facts about the SQL statements *)

Module SqliteFacts.

Import Python PythonFacts Sqlite DidiTrackerDB Notions.
Open Scope Q_scope.

Lemma fold_left_Qplus (l : list Q) (a : Q) :
  fold_left Qplus l a == a + sum_list l.
Proof.
  revert a. induction l as [|x l IH]; intros a; simpl.
  - rewrite Qplus_0_r. reflexivity.
  - rewrite IH. rewrite Qplus_assoc. reflexivity.
Qed.

Lemma total_sum_list (col : trip -> Q) (rows : list trip) :
  total col rows == sum_list (map col rows).
Proof.
  unfold total. rewrite fold_left_Qplus. apply Qplus_0_l.
Qed.

Lemma or0_SUM (col : trip -> Q) (rows : list trip) :
  or0 (SUM col rows) == sum_list (map col rows).
Proof.
  destruct rows as [|r rows]; [reflexivity|].
  unfold SUM. rewrite or0_Some. apply total_sum_list.
Qed.

Lemma or0_AVG (col : trip -> Q) (rows : list trip) :
  or0 (AVG col rows) == mean (map col rows).
Proof.
  destruct rows as [|r rows]; [reflexivity|].
  unfold AVG. rewrite or0_Some. unfold mean, COUNT.
  rewrite total_sum_list, length_map. reflexivity.
Qed.

Lemma select_where_insert (p : trip -> bool) (db : database) (ts : string)
    (uid : Z) (name : string) (t d : Q) (dur : Z) (pk ph : Q) (day : string) :
  let r := mk_trip (next_rowid db) uid name t d dur pk ph ts day in
  select_where p (insert db ts uid name t d dur pk ph day) =
  (select_where p db ++ if p r then [r] else [])%list.
Proof.
  unfold select_where, insert. simpl. rewrite filter_app. simpl.
  destruct (p _); reflexivity.
Qed.

Lemma filter_none_id {A : Type} (p : A -> bool) (l : list A) :
  filter p l = [] -> filter (fun x => negb (p x)) l = l.
Proof.
  induction l as [|x l IH]; simpl; [reflexivity|].
  destruct (p x); simpl; [discriminate|].
  intros H. f_equal. apply IH, H.
Qed.

End SqliteFacts.


(** * Properties of class DidiTrackerDB *)

Module DidiTrackerDBFacts.

Import Python PythonFacts Datetime DatetimeFacts.
Import Sqlite SqliteFacts DidiTrackerDB Notions.

(** ** The two rates of [add_trip] *)

Section Rates.

Open Scope Q_scope.

Variable t : Q.

Lemma per_distance_rate_pos (d : Q) :
  0 < d -> per_distance_rate t d = Ok (t / d).
Proof.
  intros Hd. unfold per_distance_rate.
  rewrite (proj2 (gt_spec d 0) Hd).
  apply truediv_nonzero. intros E. rewrite E in Hd.
  exact (Qlt_irrefl 0 Hd).
Qed.

Lemma per_distance_rate_nonpos (d : Q) :
  d <= 0 -> per_distance_rate t d = Ok 0.
Proof.
  intros Hd. unfold per_distance_rate.
  now rewrite (proj2 (gt_false d 0) Hd).
Qed.

Lemma hours_nonzero (dur : Z) : (0 < dur)%Z -> ~ inject_Z dur / 60 == 0.
Proof.
  intros Hd E.
  assert (inject_Z dur == 0) as E'.
  { rewrite <- (Qmult_div_r (inject_Z dur) 60) by discriminate.
    rewrite E. reflexivity. }
  unfold Qeq in E'. simpl in E'. lia.
Qed.

Lemma per_time_rate_pos (dur : Z) :
  (0 < dur)%Z -> per_time_rate t dur = Ok (t / (inject_Z dur / 60)).
Proof.
  intros Hd. unfold per_time_rate.
  rewrite (proj2 (Z.gtb_lt dur 0) Hd).
  rewrite (truediv_nonzero (inject_Z dur) 60) by discriminate.
  cbn [bind]. apply truediv_nonzero, hours_nonzero, Hd.
Qed.

Lemma per_time_rate_nonpos (dur : Z) :
  (dur <= 0)%Z -> per_time_rate t dur = Ok 0.
Proof.
  intros Hd. unfold per_time_rate.
  destruct (Z.gtb_spec dur 0) as [H|H]; [lia|reflexivity].
Qed.

End Rates.

(** C3. [per_distance_rate fare distance] is [fare / distance] when
    [distance > 0]; when [distance == 0] it is [0], returned and not
    raised as an error. *)
Theorem per_distance_rate_spec (fare dist : Q) :
  (0 < dist -> per_distance_rate fare dist = Ok (fare / dist))%Q /\
  (dist == 0 -> per_distance_rate fare dist = Ok 0)%Q.
Proof.
  split.
  - apply per_distance_rate_pos.
  - intros E. apply per_distance_rate_nonpos. rewrite E. apply Qle_refl.
Qed.

Lemma per_distance_rate_spec_witness :
  (per_distance_rate 5200 14 = Ok (5200 / 14) /\
   per_distance_rate 5200 0 = Ok 0)%Q.
Proof.
  split.
  - apply (proj1 (per_distance_rate_spec 5200 14)). reflexivity.
  - apply (proj2 (per_distance_rate_spec 5200 0)). reflexivity.
Defined.

(** C4. [per_time_rate fare minutes] is [fare / (minutes / 60)] when
    [minutes > 0]; when [minutes = 0] it is [0], returned and not
    raised as an error. *)
Theorem per_time_rate_spec (fare : Q) (minutes : Z) :
  ((0 < minutes)%Z ->
   per_time_rate fare minutes = Ok (fare / (inject_Z minutes / 60)))%Q /\
  (minutes = 0%Z -> per_time_rate fare minutes = Ok 0%Q).
Proof.
  split.
  - apply per_time_rate_pos.
  - intros ->. apply per_time_rate_nonpos. lia.
Qed.

Lemma per_time_rate_spec_witness :
  (per_time_rate 5200 28 = Ok (5200 / (inject_Z 28 / 60)) /\
   per_time_rate 5200 0 = Ok 0)%Q.
Proof.
  split.
  - apply (proj1 (per_time_rate_spec 5200 28)). reflexivity.
  - apply (proj2 (per_time_rate_spec 5200 0)). reflexivity.
Defined.

(** C9. A strictly negative distance, and a strictly negative
    duration, give the rate [0]: the guards test [> 0], so every
    denominator that is not positive yields [0]. *)
Theorem rates_of_negative_denominators (fare dist : Q) (minutes : Z) :
  (dist < 0 -> per_distance_rate fare dist = Ok 0)%Q /\
  ((minutes < 0)%Z -> per_time_rate fare minutes = Ok 0%Q) /\
  (dist <= 0 -> per_distance_rate fare dist = Ok 0)%Q /\
  ((minutes <= 0)%Z -> per_time_rate fare minutes = Ok 0%Q).
Proof.
  repeat split.
  - intros H. apply per_distance_rate_nonpos, Qlt_le_weak, H.
  - intros H. apply per_time_rate_nonpos. lia.
  - apply per_distance_rate_nonpos.
  - apply per_time_rate_nonpos.
Qed.

Lemma rates_of_negative_denominators_witness :
  (per_distance_rate 5200 (-14) = Ok 0 /\ ~ 5200 / -14 == 0 /\
   per_time_rate 5200 (-28) = Ok 0 /\ ~ 5200 / (inject_Z (-28) / 60) == 0)%Q.
Proof.
  pose proof (rates_of_negative_denominators 5200 (-14) (-28)) as (Hd & Ht & _).
  split; [apply Hd; reflexivity|].
  split; [discriminate|].
  split; [apply Ht; reflexivity|discriminate].
Defined.

(** ** [add_trip] *)

Lemma per_distance_rate_total (t d : Q) :
  exists pk, per_distance_rate t d = Ok pk /\ (d <= 0 -> pk = 0)%Q.
Proof.
  destruct (Qlt_le_dec 0 d) as [H|H].
  - exists (t / d)%Q. split; [now apply per_distance_rate_pos|].
    intros H'. exfalso. exact (Qlt_not_le _ _ H H').
  - exists 0%Q. split; [now apply per_distance_rate_nonpos|reflexivity].
Qed.

Lemma per_time_rate_total (t : Q) (dur : Z) :
  exists ph, per_time_rate t dur = Ok ph /\ ((dur <= 0)%Z -> ph = 0%Q).
Proof.
  destruct (Z_lt_le_dec 0 dur) as [H|H].
  - exists (t / (inject_Z dur / 60))%Q. split; [now apply per_time_rate_pos|lia].
  - exists 0%Q. split; [now apply per_time_rate_nonpos|reflexivity].
Qed.

(** What [add_trip] does, for any arguments: it returns the two rates
    and appends one row holding the arguments, the rates and the date
    of the clock. *)
Lemma add_trip_inserts (c : clock) (db : database) (uid : Z) (name : string)
    (t d : Q) (dur : Z) :
  exists pk ph,
    per_distance_rate t d = Ok pk /\ per_time_rate t dur = Ok ph /\
    add_trip c db uid name t d dur =
    Ok (insert db (current_timestamp c) uid name t d dur pk ph
          (strftime_Ymd (now c)), (pk, ph)).
Proof.
  destruct (per_distance_rate_total t d) as (pk & Hpk & _).
  destruct (per_time_rate_total t dur) as (ph & Hph & _).
  exists pk, ph. split; [exact Hpk|]. split; [exact Hph|].
  unfold add_trip. rewrite Hpk, Hph. reflexivity.
Qed.

Lemma per_distance_rate_formula (t d x : Q) :
  per_distance_rate t d = Ok x ->
  ((0 < d)%Q -> x = (t / d)%Q) /\ ((d <= 0)%Q -> x = 0%Q).
Proof.
  intros H. split; intros Hd.
  - rewrite (per_distance_rate_pos t d Hd) in H. now injection H.
  - rewrite (per_distance_rate_nonpos t d Hd) in H. now injection H.
Qed.

Lemma per_time_rate_formula (t : Q) (dur : Z) (x : Q) :
  per_time_rate t dur = Ok x ->
  ((0 < dur)%Z -> x = (t / (inject_Z dur / 60))%Q) /\
  ((dur <= 0)%Z -> x = 0%Q).
Proof.
  intros H. split; intros Hd.
  - rewrite (per_time_rate_pos t dur Hd) in H. now injection H.
  - rewrite (per_time_rate_nonpos t dur Hd) in H. now injection H.
Qed.

Lemma call_add_trip_returns (c : clock) (db : database) (uid : Z)
    (name : string) (t d : Q) (dur : Z) (r : database * (Q * Q)) :
  call_add_trip c db uid name t d dur = Ok r ->
  add_trip c db uid name t d dur = Ok r /\
  fits_integer uid = true /\ fits_integer dur = true.
Proof.
  unfold call_add_trip.
  destruct (fits_integer uid), (fits_integer dur); cbn [andb];
    try discriminate. auto.
Qed.

(** C8, as stated, fails: a duration that does not fit a signed 64-bit
    integer is a numeric input for which [add_trip] raises
    ([OverflowError]) and stores nothing. *)
Lemma add_trip_refuses_large_duration :
  call_add_trip today Sqlite.empty 1 "ana" 5200 14 (2 ^ 63) =
    Raise OverflowError /\
  ~ exists r, call_add_trip today Sqlite.empty 1 "ana" 5200 14 (2 ^ 63) = Ok r.
Proof.
  split; [reflexivity|]. intros [r H]. discriminate H.
Qed.

(** C8, amended. [add_trip] validates no sign: for every fare and
    distance, and every sender id and duration that fit a signed
    64-bit integer, positive or not, it returns (it raises nothing, in
    particular no [ZeroDivisionError]) and appends one row holding the
    arguments as given, the date of the clock and the two rates, which
    are the quotients for positive denominators and [0] otherwise, so
    [0] for a zero denominator. *)
Theorem add_trip_accepts_storable_numbers (c : clock) (db : database)
    (uid : Z) (name : string) (fare dist : Q) (minutes : Z) :
  fits_integer uid = true -> fits_integer minutes = true ->
  exists pk ph db',
    call_add_trip c db uid name fare dist minutes = Ok (db', (pk, ph)) /\
    trips db' =
      (trips db ++
       [mk_trip (next_rowid db) uid name fare dist minutes pk ph
                (current_timestamp c) (strftime_Ymd (now c))])%list /\
    ((0 < dist)%Q -> pk = (fare / dist)%Q) /\
    ((dist <= 0)%Q -> pk = 0%Q) /\
    ((0 < minutes)%Z -> ph = (fare / (inject_Z minutes / 60))%Q) /\
    ((minutes <= 0)%Z -> ph = 0%Q) /\
    ((dist == 0)%Q -> pk = 0%Q) /\
    (minutes = 0%Z -> ph = 0%Q).
Proof.
  intros Hu Hm.
  destruct (add_trip_inserts c db uid name fare dist minutes)
    as (pk & ph & Hpk & Hph & Hadd).
  destruct (per_distance_rate_formula _ _ _ Hpk) as [K1 K2].
  destruct (per_time_rate_formula _ _ _ Hph) as [H1 H2].
  exists pk, ph. eexists. unfold call_add_trip. rewrite Hu, Hm. cbn [andb].
  split; [exact Hadd|]. split; [reflexivity|].
  repeat (split; [assumption|]). split.
  - intros E. apply K2. rewrite E. apply Qle_refl.
  - intros E. apply H2. lia.
Qed.

Lemma add_trip_accepts_storable_numbers_witness :
  exists pk ph db',
    call_add_trip today three_trips 1 "ana" (-5200) 0 0 =
      Ok (db', (pk, ph)) /\
    map id (trips db') = [1; 2; 3; 4]%Z /\
    pk = 0%Q /\ ph = 0%Q.
Proof.
  destruct (add_trip_accepts_storable_numbers today three_trips 1 "ana"
              (-5200) 0 0 eq_refl eq_refl)
    as (pk & ph & db' & Hadd & Hrows & _ & Hpk & _ & Hph & _).
  exists pk, ph, db'. split; [exact Hadd|]. split.
  - rewrite Hrows. reflexivity.
  - split; [apply Hpk|apply Hph]; discriminate.
Defined.

(** ** The aggregate of the statistics methods *)

Lemma stats_of_nil : stats_of [] = no_stats.
Proof. reflexivity. Qed.

Lemma stats_of_spec (rows : list trip) :
  trips_count (stats_of rows) = Z.of_nat (List.length rows) /\
  (total_money (stats_of rows) == sum_list (map tariff rows))%Q /\
  (total_distance (stats_of rows) == sum_list (map distance rows))%Q /\
  (avg_per_km (stats_of rows) == mean (map per_km rows))%Q.
Proof.
  unfold stats_of. cbn [trips_count total_money total_distance avg_per_km].
  rewrite or0_int_id. split; [reflexivity|].
  split; [apply or0_SUM|]. split; [apply or0_SUM|apply or0_AVG].
Qed.

(** ** Daily statistics after a sequence of insertions *)

Section SameDay.

Variable uid : Z.
Variable day : string.

Lemma on_day_inserted (rowid : Z) (name ts : string) (t d : Q) (dur : Z)
    (pk ph : Q) :
  on_day uid day (mk_trip rowid uid name t d dur pk ph ts day) = true.
Proof.
  unfold on_day. cbn [user_id date].
  now rewrite Z.eqb_refl, String.eqb_refl.
Qed.

Lemma add_trips_rows (l : list trip_input) (db : database) :
  all_on_day day l ->
  exists db' rates rows,
    add_trips db uid l = Ok (db', rates) /\
    select_where (on_day uid day) db' =
      (select_where (on_day uid day) db ++ rows)%list /\
    map tariff rows = map in_tariff l /\
    map distance rows = map in_distance l /\
    map per_km rows = map fst rates /\
    Forall2 (fun i r => per_distance_rate (in_tariff i) (in_distance i) =
                        Ok (fst r)) l rates.
Proof.
  intros Hl. revert db. induction Hl as [|i l Hi Hl IH]; intros db.
  - exists db, [], []. rewrite app_nil_r. repeat split; constructor.
  - destruct (add_trip_inserts (at_clock i) db uid (in_name i) (in_tariff i)
                (in_distance i) (in_duration i)) as (pk & ph & Hpk & _ & Hadd).
    rewrite Hi in Hadd.
    destruct (IH (insert db (current_timestamp (at_clock i)) uid (in_name i)
                    (in_tariff i) (in_distance i) (in_duration i) pk ph day))
      as (db' & rates & rows & Hrun & Hsel & Ht & Hd & Hk & Hr).
    rewrite select_where_insert, on_day_inserted, <- app_assoc in Hsel.
    eexists db', ((pk, ph) :: rates), (_ :: rows).
    split; [cbn [add_trips]; rewrite Hadd; cbn [bind fst snd];
            rewrite Hrun; reflexivity|].
    split; [exact Hsel|].
    cbn [map tariff distance per_km fst]. rewrite Ht, Hd, Hk.
    repeat split. constructor; [exact Hpk|exact Hr].
Qed.

End SameDay.

Lemma select_where_none (p : trip -> bool) (db : database) :
  (forall r, In r (trips db) -> p r = false) -> select_where p db = [].
Proof.
  unfold select_where. induction (trips db) as [|r rows IH]; [reflexivity|].
  intros H. cbn [filter]. rewrite (H r (or_introl eq_refl)).
  apply IH. intros r' Hr'. apply H. now right.
Qed.

(** C2. From any database that holds no trip of the user dated [day]
    (it may hold trips of other users and of other days), after any
    sequence of N insertions for the user made on [day], the daily
    statistics of the user for [day] have [trips_count = N],
    [total_money] the sum of the N fares, [total_distance] the sum of
    the N distances and [avg_per_km] the mean of the N rates the calls
    returned, each of which is [fare / distance] (or [0] for a
    distance that is not positive). *)
Theorem daily_stats_after_inserts (c : clock) (db : database) (uid : Z)
    (day : string) (l : list trip_input) :
  (forall r, In r (trips db) -> ~ (user_id r = uid /\ date r = day)) ->
  all_on_day day l ->
  exists db' rates,
    add_trips db uid l = Ok (db', rates) /\
    Forall2 (fun i r =>
               ((0 < in_distance i)%Q ->
                fst r = (in_tariff i / in_distance i)%Q) /\
               ((in_distance i <= 0)%Q -> fst r = 0%Q)) l rates /\
    trips_count (get_daily_stats c db' uid (Some day)) =
      Z.of_nat (List.length l) /\
    (total_money (get_daily_stats c db' uid (Some day)) ==
       sum_list (map in_tariff l))%Q /\
    (total_distance (get_daily_stats c db' uid (Some day)) ==
       sum_list (map in_distance l))%Q /\
    (avg_per_km (get_daily_stats c db' uid (Some day)) ==
       mean (map fst rates))%Q /\
    (strftime_Ymd (now c) = day ->
     get_daily_stats c db' uid None = get_daily_stats c db' uid (Some day)).
Proof.
  intros Hnone Hl.
  assert (select_where (on_day uid day) db = []) as Hsel0.
  { apply select_where_none. intros r Hr.
    destruct (on_day uid day r) eqn:E; [|reflexivity].
    unfold on_day in E. apply andb_true_iff in E. destruct E as [E1 E2].
    apply Z.eqb_eq in E1. apply String.eqb_eq in E2.
    exfalso. exact (Hnone r Hr (conj E1 E2)). }
  destruct (add_trips_rows uid day l db Hl)
    as (db' & rates & rows & Hrun & Hsel & Ht & Hd & Hk & Hr).
  rewrite Hsel0 in Hsel. cbn [app] in Hsel.
  exists db', rates. split; [exact Hrun|]. split.
  { clear - Hr. induction Hr as [|i r l rates Hir _ IH]; constructor;
      [apply (per_distance_rate_formula _ _ _ Hir)|exact IH]. }
  unfold get_daily_stats. cbn [date_or_today]. rewrite Hsel.
  destruct (stats_of_spec rows) as (Hc & Hm & Hdist & Havg).
  rewrite Hc, Hm, Hdist, Havg, Ht, Hd, Hk.
  rewrite <- (length_map tariff rows), Ht, length_map.
  repeat split; try reflexivity.
  intros E. rewrite E, Hsel. reflexivity.
Qed.

Lemma daily_stats_after_inserts_witness :
  exists db' rates,
    add_trips three_trips 3 two_trips = Ok (db', rates) /\
    Forall2 (fun i r =>
               ((0 < in_distance i)%Q ->
                fst r = (in_tariff i / in_distance i)%Q) /\
               ((in_distance i <= 0)%Q -> fst r = 0%Q)) two_trips rates /\
    trips_count (get_daily_stats today db' 3 (Some "2026-11-03"%string)) =
      2%Z /\
    (total_money (get_daily_stats today db' 3 (Some "2026-11-03"%string)) ==
       1000 + (2000 + 0))%Q /\
    (total_distance (get_daily_stats today db' 3 (Some "2026-11-03"%string)) ==
       5 + (10 + 0))%Q /\
    (avg_per_km (get_daily_stats today db' 3 (Some "2026-11-03"%string)) ==
       mean (map fst rates))%Q /\
    (strftime_Ymd (now today) = "2026-11-03"%string ->
     get_daily_stats today db' 3 None =
     get_daily_stats today db' 3 (Some "2026-11-03"%string)).
Proof.
  apply (daily_stats_after_inserts today three_trips 3 "2026-11-03" two_trips).
  - intros r [<-|[<-|[<-|[]]]] [H _]; discriminate H.
  - repeat constructor.
Defined.

(** ** Statistics over no trips *)



(** ** [delete_daily_trips] *)

Lemma on_day_spec (uid : Z) (day : string) (r : trip) :
  on_day uid day r = true <-> user_id r = uid /\ date r = day.
Proof.
  unfold on_day. now rewrite andb_true_iff, Z.eqb_eq, String.eqb_eq.
Qed.

Lemma filter_filter_same {A : Type} (p : A -> bool) (l : list A) :
  filter p (filter p l) = filter p l.
Proof.
  induction l as [|x l IH]; simpl; [reflexivity|].
  destruct (p x) eqn:E; simpl; [rewrite E, IH|]; congruence.
Qed.

Lemma filter_filter_negb {A : Type} (p : A -> bool) (l : list A) :
  filter p (filter (fun x => negb (p x)) l) = [].
Proof.
  induction l as [|x l IH]; simpl; [reflexivity|].
  destruct (p x) eqn:E; simpl; [|rewrite E]; exact IH.
Qed.

(** C6. [delete_daily_trips] for a user and a day [d] removes exactly
    the trips whose user and date both match: a trip is in the table
    afterwards iff it was there and is of another user or another
    day; the table afterwards is the table before without the
    matching rows, the others unchanged and in the same order; the
    AUTOINCREMENT counter is unchanged; and when no trip matches, the
    database is unchanged.  Without a day, the day is the date of the
    clock.  Nothing is raised in any case. *)
Theorem delete_daily_trips_frame (c : clock) (db : database) (uid : Z)
    (d : string) :
  (forall r, In r (trips (delete_daily_trips c db uid (Some d))) <->
             In r (trips db) /\ ~ (user_id r = uid /\ date r = d)) /\
  trips (delete_daily_trips c db uid (Some d)) =
    filter (fun r => negb ((user_id r =? uid)%Z && (date r =? d)%string))
           (trips db) /\
  sqlite_sequence (delete_daily_trips c db uid (Some d)) =
    sqlite_sequence db /\
  ((forall r, In r (trips db) -> ~ (user_id r = uid /\ date r = d)) ->
   delete_daily_trips c db uid (Some d) = db) /\
  delete_daily_trips c db uid None =
    delete_daily_trips c db uid (Some (strftime_Ymd (now c))).
Proof.
  unfold delete_daily_trips, delete_where. cbn [trips sqlite_sequence
    date_or_today].
  split; [|split; [|split; [|split]]]; try reflexivity.
  - intros r. rewrite filter_In, negb_true_iff, <- on_day_spec.
    destruct (on_day uid d r); intuition congruence.
  - intros H. rewrite (filter_none_id (on_day uid d) (trips db));
      [destruct db; reflexivity|].
    apply select_where_none. intros r Hr.
    destruct (on_day uid d r) eqn:E; [|reflexivity].
    apply on_day_spec in E. exfalso. exact (H r Hr E).
Qed.

Lemma delete_daily_trips_frame_witness :
  map id (trips (delete_daily_trips today three_trips 1
                   (Some "2026-11-02"%string))) = [2; 3]%Z /\
  map id (trips (delete_daily_trips today three_trips 1 None)) = [1; 3]%Z /\
  delete_daily_trips today three_trips 3 (Some "2026-11-03"%string) =
    three_trips.
Proof.
  split; [reflexivity|]. split; [reflexivity|].
  apply (proj1 (proj2 (proj2 (proj2
           (delete_daily_trips_frame today three_trips 3 "2026-11-03"))))).
  intros r [<-|[<-|[<-|[]]]] [H _]; discriminate H.
Defined.

(** ** The derived columns *)

Lemma run_rows (c : clock) (m : call) (db db' : database) (rep : reply) :
  run c m db = Ok (db', rep) ->
  match m with
  | AddTrip uid name t d dur =>
      exists pk ph,
        per_distance_rate t d = Ok pk /\ per_time_rate t dur = Ok ph /\
        db' = insert db (current_timestamp c) uid name t d dur pk ph
                (strftime_Ymd (now c))
  | GetDailyStats _ _ | GetWeeklyStats _ => db' = db
  | DeleteDailyTrips uid day =>
      db' = delete_where (on_day uid (date_or_today c day)) db
  end.
Proof.
  destruct m as [uid name t d dur|uid day|uid|uid day]; cbn [run].
  - destruct (add_trip_inserts c db uid name t d dur)
      as (pk & ph & Hpk & Hph & ->).
    cbn [bind fst]. intros [= <- _]. exists pk, ph. auto.
  - intros [= <- _]. reflexivity.
  - destruct (get_weekly_stats c db uid); cbn [bind]; [|discriminate].
    intros [= <- _]. reflexivity.
  - intros [= <- _]. reflexivity.
Qed.

Lemma run_keeps_rates (c : clock) (m : call) (db db' : database)
    (rep : reply) :
  Forall rates_stored (trips db) -> run c m db = Ok (db', rep) ->
  Forall rates_stored (trips db').
Proof.
  intros Inv H. apply run_rows in H. destruct m.
  - destruct H as (pk & ph & Hpk & Hph & ->). unfold insert. cbn [trips].
    apply Forall_app. split; [exact Inv|].
    constructor; [|constructor]. split; assumption.
  - now subst.
  - now subst.
  - subst. unfold delete_where. cbn [trips].
    rewrite Forall_forall in *. intros r Hr.
    apply filter_In in Hr. apply Inv, Hr.
Qed.

Lemma reachable_rates (db : database) :
  reachable db -> Forall rates_stored (trips db).
Proof.
  induction 1 as [|c m db db' rep _ IH Hrun].
  - constructor.
  - exact (run_keeps_rates c m db db' rep IH Hrun).
Qed.

Lemma rates_stored_formula (r : trip) :
  rates_stored r -> rates_by_formula r.
Proof.
  intros [Hk Hh]. unfold rates_by_formula.
  destruct (per_distance_rate_formula _ _ _ Hk) as [K1 K2].
  destruct (per_time_rate_formula _ _ _ Hh) as [H1 H2]. auto.
Qed.

(** C10. In every database the class can build, every row holds in
    [per_km] the value [tariff / distance] of its own columns ([0]
    when the distance is not positive) and in [per_hour] the value
    [tariff / (duration / 60)] ([0] when the duration is not
    positive).  [add_trip] appends one row that satisfies this and
    changes no other; the statistics methods leave the table as it
    is, and [delete_daily_trips] only removes rows. *)
Theorem rates_stored_invariant (db : database) :
  reachable db ->
  Forall rates_by_formula (trips db) /\
  forall c m db' rep,
    run c m db = Ok (db', rep) ->
    Forall rates_by_formula (trips db') /\
    match m with
    | AddTrip _ _ t d dur =>
        exists r, trips db' = (trips db ++ [r])%list /\
                  tariff r = t /\ distance r = d /\ duration r = dur /\
                  rates_by_formula r
    | GetDailyStats _ _ | GetWeeklyStats _ => trips db' = trips db
    | DeleteDailyTrips _ _ => incl (trips db') (trips db)
    end.
Proof.
  intros Hr. pose proof (reachable_rates db Hr) as Inv.
  split; [eapply Forall_impl; [exact rates_stored_formula|exact Inv]|].
  intros c m db' rep Hrun. split.
  { eapply Forall_impl; [exact rates_stored_formula|].
    exact (run_keeps_rates c m db db' rep Inv Hrun). }
  apply run_rows in Hrun. destruct m.
  - destruct Hrun as (pk & ph & Hpk & Hph & ->).
    eexists. split; [reflexivity|]. repeat split; try reflexivity.
    + intros H. apply (per_distance_rate_formula _ _ _ Hpk), H.
    + intros H. apply (per_distance_rate_formula _ _ _ Hpk), H.
    + intros H. apply (per_time_rate_formula _ _ _ Hph), H.
    + intros H. apply (per_time_rate_formula _ _ _ Hph), H.
  - now subst.
  - now subst.
  - subst. intros r Hin. apply filter_In in Hin. apply Hin.
Qed.

Lemma rates_stored_invariant_witness :
  Forall rates_by_formula (trips (one_trip today)) /\
  map per_km (trips (one_trip today)) = [(5200 # 14)%Q].
Proof.
  split; [|reflexivity].
  apply (rates_stored_invariant (one_trip today)).
  apply (reachable_run today (AddTrip 1 "ana" 5200 14 28) (init_db None)
           (one_trip today) (Rates (5200 / 14) (5200 / (inject_Z 28 / 60)))).
  - apply reachable_init.
  - reflexivity.
Defined.

(** ** The window of [get_weekly_stats] *)

Lemma since_spec (uid : Z) (w x : datetime) (r : trip) :
  valid w = true -> valid x = true -> date r = strftime_Ymd x ->
  (since uid (strftime_Ymd w) r = true <-> user_id r = uid /\ le w x).
Proof.
  intros Hw Hx Hr. unfold since, text_ge, String.leb, le.
  rewrite Hr, (strftime_compare w x Hw Hx), andb_true_iff, Z.eqb_eq.
  destruct (compare w x); intuition congruence.
Qed.

Lemma get_weekly_stats_rows (c : clock) (db : database) (uid : Z)
    (w : datetime) :
  sub_days (now c) 7 = Ok w ->
  get_weekly_stats c db uid =
  Ok (stats_of (select_where (since uid (strftime_Ymd w)) db)).
Proof.
  intros Hw. unfold get_weekly_stats. rewrite Hw. reflexivity.
Qed.

(** The trips [get_weekly_stats] aggregates: those of the user dated
    today, one of the seven days before today, or later. *)
Lemma weekly_window (c : clock) (db : database) (uid : Z) (w x : datetime)
    (r : trip) :
  valid (now c) = true -> valid x = true -> sub_days (now c) 7 = Ok w ->
  date r = strftime_Ymd x ->
  (In r (select_where (since uid (strftime_Ymd w)) db) <->
   In r (trips db) /\ user_id r = uid /\
   (lt (now c) x \/
    exists j, (j <= 7)%nat /\ sub_days (now c) j = Ok x)).
Proof.
  intros Hc Hx Hw Hr. unfold select_where.
  rewrite filter_In.
  rewrite (since_spec uid w x r (sub_days_valid (now c) w 7 Hc Hw) Hx Hr).
  rewrite (sub_days_window (now c) w x 7 Hc Hx Hw). tauto.
Qed.

Lemma sum_list_middle (l1 l2 : list Q) (x : Q) :
  (sum_list (l1 ++ x :: l2) == sum_list (l1 ++ l2) + x)%Q.
Proof.
  induction l1 as [|y l1 IH]; simpl.
  - apply Qplus_comm.
  - rewrite IH, Qplus_assoc. reflexivity.
Qed.

Lemma stats_of_with_row (l1 l2 : list trip) (r : trip) :
  trips_count (stats_of (l1 ++ r :: l2)) =
    (trips_count (stats_of (l1 ++ l2)) + 1)%Z /\
  (total_money (stats_of (l1 ++ r :: l2)) ==
     total_money (stats_of (l1 ++ l2)) + tariff r)%Q /\
  (total_distance (stats_of (l1 ++ r :: l2)) ==
     total_distance (stats_of (l1 ++ l2)) + distance r)%Q.
Proof.
  destruct (stats_of_spec (l1 ++ r :: l2)) as (-> & -> & -> & _).
  destruct (stats_of_spec (l1 ++ l2)) as (-> & -> & -> & _).
  rewrite !map_app, !length_app. cbn [map List.length].
  rewrite !sum_list_middle. repeat split; try reflexivity. lia.
Qed.

(** C7. In a table that holds a trip of the user dated exactly 6 days
    before today and another dated exactly 8 days before today,
    [get_weekly_stats] counts the first and not the second: without
    the first trip its count would be one less and its totals less by
    the fare and the distance of that trip, and without the second
    trip its result would be the same. *)
Theorem weekly_stats_six_and_eight_days_ago (c : clock) (db : database)
    (uid : Z) (d6 d8 : datetime) (r6 r8 : trip) (b6 a6 b8 a8 : list trip) :
  valid (now c) = true ->
  sub_days (now c) 6 = Ok d6 -> sub_days (now c) 8 = Ok d8 ->
  user_id r6 = uid -> date r6 = strftime_Ymd d6 ->
  user_id r8 = uid -> date r8 = strftime_Ymd d8 ->
  trips db = (b6 ++ r6 :: a6)%list -> trips db = (b8 ++ r8 :: a8)%list ->
  exists s s6,
    get_weekly_stats c db uid = Ok s /\
    get_weekly_stats c (mk_database (b8 ++ a8) (sqlite_sequence db)) uid =
      Ok s /\
    get_weekly_stats c (mk_database (b6 ++ a6) (sqlite_sequence db)) uid =
      Ok s6 /\
    trips_count s = (trips_count s6 + 1)%Z /\
    (total_money s == total_money s6 + tariff r6)%Q /\
    (total_distance s == total_distance s6 + distance r6)%Q.
Proof.
  intros Hc H6 H8 U6 D6 U8 D8 E6 E8.
  destruct (sub_days_S (now c) d8 7 H8) as (w & Hw & _).
  pose proof (sub_days_valid (now c) w 7 Hc Hw) as Vw.
  pose proof (sub_days_valid (now c) d6 6 Hc H6) as V6.
  pose proof (sub_days_valid (now c) d8 8 Hc H8) as V8.
  assert (since uid (strftime_Ymd w) r6 = true) as S6.
  { apply (since_spec uid w d6 r6 Vw V6 D6). split; [exact U6|].
    apply lt_le_incl.
    apply (sub_days_lt (now c) d6 w 6 7 Hc); [lia|exact H6|exact Hw]. }
  assert (since uid (strftime_Ymd w) r8 = false) as S8.
  { destruct (since uid (strftime_Ymd w) r8) eqn:E; [|reflexivity].
    apply (since_spec uid w d8 r8 Vw V8 D8) in E. destruct E as [_ Hle].
    exfalso. apply (lt_not_le d8 w); [|exact Hle].
    apply (sub_days_lt (now c) w d8 7 8 Hc); [lia|exact Hw|exact H8]. }
  rewrite !(get_weekly_stats_rows c _ uid w Hw).
  unfold select_where. cbn [trips].
  eexists _, _. split; [reflexivity|]. split.
  { rewrite E8, !filter_app. cbn [filter]. rewrite S8. reflexivity. }
  split; [reflexivity|].
  rewrite E6, !filter_app. cbn [filter]. rewrite S6.
  apply stats_of_with_row.
Qed.

Lemma weekly_stats_six_and_eight_days_ago_witness :
  exists s s6,
    get_weekly_stats today old_trips 1 = Ok s /\
    get_weekly_stats today
      (mk_database ([] ++ [trip_of_six_days_ago]) (sqlite_sequence old_trips))
      1 = Ok s /\
    get_weekly_stats today
      (mk_database ([trip_of_eight_days_ago] ++ [])
                   (sqlite_sequence old_trips)) 1 = Ok s6 /\
    trips_count s = (trips_count s6 + 1)%Z /\
    (total_money s == total_money s6 + tariff trip_of_six_days_ago)%Q /\
    (total_distance s ==
       total_distance s6 + distance trip_of_six_days_ago)%Q.
Proof.
  apply (weekly_stats_six_and_eight_days_ago today old_trips 1
           (now six_days_ago) (now eight_days_ago)
           trip_of_six_days_ago trip_of_eight_days_ago
           [trip_of_eight_days_ago] [] [] [trip_of_six_days_ago]);
    reflexivity.
Defined.

Example weekly_stats_of_old_trips :
  trips old_trips = [trip_of_eight_days_ago; trip_of_six_days_ago] /\
  get_weekly_stats today old_trips 1 = Ok (mk_stats 1 1000 5 (1000 # 5)).
Proof. split; reflexivity. Qed.

(** A trip of the user dated exactly 7 days before today is among the
    rows [get_weekly_stats] aggregates, although that date is none of
    the seven dates from 6 days before today to today. *)
Lemma weekly_window_has_eighth_date (c : clock) (db : database) (uid : Z)
    (w : datetime) (r : trip) :
  valid (now c) = true -> sub_days (now c) 7 = Ok w ->
  In r (trips db) -> user_id r = uid -> date r = strftime_Ymd w ->
  In r (select_where (since uid (strftime_Ymd w)) db) /\
  forall j, (j <= 6)%nat -> sub_days (now c) j <> Ok w.
Proof.
  intros Hc Hw Hin Hu Hd.
  pose proof (sub_days_valid (now c) w 7 Hc Hw) as Vw. split.
  - apply (weekly_window c db uid w w r Hc Vw Hw Hd).
    split; [exact Hin|]. split; [exact Hu|].
    right. exists 7%nat. split; [lia|exact Hw].
  - intros j Hj E.
    assert (lt w w) as L
      by (apply (sub_days_lt (now c) w w j 7 Hc); [lia|exact E|exact Hw]).
    unfold lt in L. rewrite compare_refl in L. discriminate.
Qed.

(** C1 (fails on the code). One trip of user 1 entered on 2026-10-27;
    on 2026-11-03 the seven dates from 6 days before today to today
    are 2026-10-28 to 2026-11-03, and [get_weekly_stats] nevertheless
    counts the trip: its lower bound is 7 days before today. *)
Theorem weekly_stats_counts_seven_days_ago :
  map (sub_days (now today)) (seq 0 7) =
    map (fun d => Ok (mk_datetime 2026 (fst d) (snd d)))
        [(11, 3); (11, 2); (11, 1); (10, 31); (10, 30); (10, 29); (10, 28)]%Z /\
  map date (trips (one_trip seven_days_ago)) = ["2026-10-27"%string] /\
  get_weekly_stats today (one_trip seven_days_ago) 1 =
    Ok (mk_stats 1 5200 14 (5200 # 14)).
Proof.
  split; [reflexivity|]. split; reflexivity.
Qed.

End DidiTrackerDBFacts.

(** * Further properties of class DidiTrackerDB *)

Module StoreLaws.

Import Python PythonFacts Datetime DatetimeFacts.
Import Sqlite SqliteFacts DidiTrackerDB Notions Laws DidiTrackerDBFacts.

(** ** Reachable sample databases *)

Lemma reachable_added (c : clock) (uid : Z) (name : string) (t d : Q)
    (dur : Z) (db : database) :
  reachable db -> reachable (added c uid name t d dur db).
Proof.
  intros Hr.
  destruct (add_trip_inserts c db uid name t d dur)
    as (pk & ph & _ & _ & Hadd).
  apply (reachable_run c (AddTrip uid name t d dur) db _ (Rates pk ph) Hr).
  unfold added. cbn [run]. rewrite Hadd. reflexivity.
Qed.

Lemma reachable_deleted (c : clock) (uid : Z) (day : option string)
    (db : database) :
  reachable db -> reachable (delete_daily_trips c db uid day).
Proof.
  intros Hr.
  apply (reachable_run c (DeleteDailyTrips uid day) db _ Done Hr).
  reflexivity.
Qed.

Lemma reachable_three_trips : reachable three_trips.
Proof.
  unfold three_trips. repeat apply reachable_added. apply reachable_init.
Qed.

(** ** Rowids *)

Lemma max_rowid_bound (rows : list trip) (b : Z) :
  (0 <= b)%Z -> Forall (fun r => (0 < id r <= b)%Z) rows ->
  (max_rowid rows <= b)%Z.
Proof.
  intros Hb H. induction H as [|r rows Hr _ IH]; simpl; lia.
Qed.

Lemma StronglySorted_snoc (l : list Z) (x : Z) :
  StronglySorted Z.lt l -> Forall (fun y => (y < x)%Z) l ->
  StronglySorted Z.lt (l ++ [x]).
Proof.
  induction 1 as [|y l Hs IH Hy]; intros Hx; simpl.
  - repeat constructor.
  - inversion Hx as [|? ? Hyx Hlx]; subst. constructor.
    + apply IH, Hlx.
    + apply Forall_app. split; [exact Hy|]. constructor; [exact Hyx|constructor].
Qed.

Lemma StronglySorted_filter_ids (p : trip -> bool) (rows : list trip) :
  StronglySorted Z.lt (map id rows) ->
  StronglySorted Z.lt (map id (filter p rows)).
Proof.
  induction rows as [|r rows IH]; simpl; [constructor|].
  intros H. apply StronglySorted_inv in H. destruct H as [Hs Hr].
  destruct (p r); simpl; [|apply IH, Hs].
  constructor; [apply IH, Hs|].
  rewrite Forall_forall in *. intros y Hy. apply Hr.
  rewrite in_map_iff in *. destruct Hy as (r' & <- & Hin).
  exists r'. split; [reflexivity|]. apply filter_In in Hin. apply Hin.
Qed.

Lemma rowids_ok_seq (db : database) : rowids_ok db -> (0 <= sqlite_sequence db)%Z ->
  (next_rowid db = sqlite_sequence db + 1)%Z.
Proof.
  intros [_ Hb] H0. unfold next_rowid.
  pose proof (max_rowid_bound (trips db) (sqlite_sequence db) H0 Hb). lia.
Qed.

(** What a call that returns does to the rowids. *)
Lemma run_rowids (c : clock) (m : call) (db db' : database) (rep : reply) :
  rowids_ok db -> (0 <= sqlite_sequence db)%Z ->
  run c m db = Ok (db', rep) ->
  rowids_ok db' /\ (sqlite_sequence db <= sqlite_sequence db')%Z /\
  forall r, In r (trips db') ->
            In r (trips db) \/ (sqlite_sequence db < id r)%Z.
Proof.
  intros Hok H0 Hrun. pose proof (rowids_ok_seq db Hok H0) as Hn.
  destruct Hok as [Hs Hb]. apply run_rows in Hrun. destruct m.
  - destruct Hrun as (pk & ph & _ & _ & ->). unfold insert, rowids_ok.
    cbn [trips sqlite_sequence]. rewrite Hn. split; [split|split].
    + rewrite map_app. apply StronglySorted_snoc; [exact Hs|].
      rewrite Forall_map. cbn [map id].
      eapply Forall_impl; [|exact Hb]. cbn beta. intros r Hr. lia.
    + apply Forall_app. split.
      * eapply Forall_impl; [|exact Hb]. cbn beta. intros r Hr. lia.
      * constructor; [cbn [id]; lia|constructor].
    + lia.
    + intros r Hin. apply in_app_or in Hin.
      destruct Hin as [Hin|[<-|[]]]; [left; exact Hin|right; cbn [id]; lia].
  - subst. split; [split; assumption|]. split; [lia|]. intros r Hr; left; exact Hr.
  - subst. split; [split; assumption|]. split; [lia|]. intros r Hr; left; exact Hr.
  - subst. unfold delete_where, rowids_ok. cbn [trips sqlite_sequence].
    split; [split|split].
    + apply StronglySorted_filter_ids, Hs.
    + rewrite Forall_forall in *. intros r Hr. apply filter_In in Hr.
      apply Hb, Hr.
    + lia.
    + intros r Hr. apply filter_In in Hr. left. apply Hr.
Qed.

Lemma reachable_rowids (db : database) :
  reachable db -> rowids_ok db /\ (0 <= sqlite_sequence db)%Z.
Proof.
  induction 1 as [|c m db db' rep _ [IH H0] Hrun].
  - split; [split; constructor|cbn; lia].
  - destruct (run_rowids c m db db' rep IH H0 Hrun) as (Hok & Hle & _).
    split; [exact Hok|lia].
Qed.

Lemma StronglySorted_lt_NoDup (l : list Z) :
  StronglySorted Z.lt l -> NoDup l.
Proof.
  induction 1 as [|x l _ IH Hx]; constructor; [|exact IH].
  intros Hin. rewrite Forall_forall in Hx. specialize (Hx x Hin). lia.
Qed.

(** X1. In every database the class can build, the rowids are
    positive, strictly increasing along the table (so no two rows
    share one) and at most the AUTOINCREMENT counter.  A call never
    lowers the counter, and a row it adds gets a rowid above the
    counter: a rowid is never handed out twice, also after rows were
    deleted. *)
Theorem rowids_never_reused (db : database) :
  reachable db ->
  rowids_ok db /\ NoDup (map id (trips db)) /\
  forall c m db' rep,
    run c m db = Ok (db', rep) ->
    (sqlite_sequence db <= sqlite_sequence db')%Z /\
    forall r, In r (trips db') ->
              In r (trips db) \/ (sqlite_sequence db < id r)%Z.
Proof.
  intros Hr. destruct (reachable_rowids db Hr) as [Hok H0].
  split; [exact Hok|]. split; [apply StronglySorted_lt_NoDup, Hok|].
  intros c m db' rep Hrun.
  apply (run_rowids c m db db' rep Hok H0 Hrun).
Qed.

Lemma rowids_never_reused_witness :
  rowids_ok (added today 1 "ana" 1000 5 12
               (delete_daily_trips today three_trips 1 None)) /\
  map id (trips (added today 1 "ana" 1000 5 12
                   (delete_daily_trips today three_trips 1 None))) =
  [1; 3; 4]%Z.
Proof.
  split; [|reflexivity].
  apply (rowids_never_reused
           (added today 1 "ana" 1000 5 12
              (delete_daily_trips today three_trips 1 None))).
  apply reachable_added, reachable_deleted, reachable_three_trips.
Defined.

(** ** How [add_trip] and [delete_daily_trips] change the statistics *)

Lemma sum_list_snoc (l : list Q) (x : Q) :
  (sum_list (l ++ [x]) == sum_list l + x)%Q.
Proof.
  induction l as [|y l IH]; simpl.
  - rewrite Qplus_0_r, Qplus_0_l. reflexivity.
  - rewrite IH, Qplus_assoc. reflexivity.
Qed.

Lemma mean_times_length (l : list Q) :
  (mean l * inject_Z (Z.of_nat (List.length l)) == sum_list l)%Q.
Proof.
  unfold mean. destruct l as [|x l]; [reflexivity|].
  rewrite Qmult_comm. apply Qmult_div_r.
  intros E. unfold Qeq in E. cbn [List.length] in E. simpl in E. lia.
Qed.

Lemma filter_filter_implied {A : Type} (p q : A -> bool) (l : list A) :
  (forall x, p x = true -> q x = true) ->
  filter p (filter q l) = filter p l.
Proof.
  intros H. induction l as [|x l IH]; simpl; [reflexivity|].
  destruct (q x) eqn:Eq; simpl.
  - rewrite IH. reflexivity.
  - destruct (p x) eqn:Ep; [|exact IH].
    rewrite (H x Ep) in Eq. discriminate.
Qed.

Lemma on_day_other (uid u2 : Z) (day d2 : string) (r : trip) :
  u2 <> uid \/ d2 <> day ->
  on_day u2 d2 r = true -> negb (on_day uid day r) = true.
Proof.
  intros H H2. apply on_day_spec in H2. destruct H2 as [<- <-].
  apply negb_true_iff. destruct (on_day uid day r) eqn:E; [|reflexivity].
  apply on_day_spec in E. destruct E as [E1 E2]. destruct H; congruence.
Qed.

Lemma since_other (uid u2 : Z) (day w : string) (r : trip) :
  u2 <> uid -> since u2 w r = true -> negb (on_day uid day r) = true.
Proof.
  intros H H2. unfold since in H2. apply andb_true_iff in H2.
  destruct H2 as [H2 _]. apply Z.eqb_eq in H2.
  apply negb_true_iff. destruct (on_day uid day r) eqn:E; [|reflexivity].
  apply on_day_spec in E. destruct E as [E1 E2]. congruence.
Qed.

(** X2. One call of [add_trip] raises the user's daily count for the
    day of the call by one, the daily total fare by the fare and the
    daily total distance by the distance, and moves the daily average
    so that average times count grows by the rate of the new trip. *)
Theorem add_trip_updates_daily_stats (c c2 : clock) (db : database)
    (uid : Z) (name : string) (t d : Q) (dur : Z) (day : option string) :
  date_or_today c2 day = strftime_Ymd (now c) ->
  exists db' pk ph,
    add_trip c db uid name t d dur = Ok (db', (pk, ph)) /\
    trips_count (get_daily_stats c2 db' uid day) =
      (trips_count (get_daily_stats c2 db uid day) + 1)%Z /\
    (total_money (get_daily_stats c2 db' uid day) ==
       total_money (get_daily_stats c2 db uid day) + t)%Q /\
    (total_distance (get_daily_stats c2 db' uid day) ==
       total_distance (get_daily_stats c2 db uid day) + d)%Q /\
    (avg_per_km (get_daily_stats c2 db' uid day) *
       inject_Z (trips_count (get_daily_stats c2 db' uid day)) ==
     avg_per_km (get_daily_stats c2 db uid day) *
       inject_Z (trips_count (get_daily_stats c2 db uid day)) + pk)%Q.
Proof.
  intros Hday.
  destruct (add_trip_inserts c db uid name t d dur)
    as (pk & ph & _ & _ & Hadd).
  exists (insert db (current_timestamp c) uid name t d dur pk ph
            (strftime_Ymd (now c))), pk, ph.
  split; [exact Hadd|].
  unfold get_daily_stats. rewrite Hday.
  rewrite select_where_insert, on_day_inserted.
  set (rows := select_where (on_day uid (strftime_Ymd (now c))) db).
  set (r := mk_trip _ _ _ _ _ _ _ _ _ _).
  destruct (stats_of_spec rows) as (Hc & Hm & Hd & Ha).
  destruct (stats_of_spec (rows ++ [r])) as (Hc' & Hm' & Hd' & Ha').
  rewrite Hc, Hc', Hm, Hm', Hd, Hd', Ha, Ha'.
  rewrite !map_app. cbn [map]. rewrite !sum_list_snoc.
  rewrite length_app. cbn [List.length].
  split; [lia|]. split; [reflexivity|]. split; [reflexivity|].
  rewrite <- (length_map per_km rows) at 2.
  rewrite mean_times_length.
  replace (List.length rows + 1)%nat
    with (List.length (map per_km rows ++ [per_km r]))
    by (rewrite length_app, length_map; reflexivity).
  rewrite mean_times_length, sum_list_snoc. reflexivity.
Qed.

Lemma add_trip_updates_daily_stats_witness :
  exists db' pk ph,
    add_trip today three_trips 1 "ana" 1500 6 20 = Ok (db', (pk, ph)) /\
    trips_count (get_daily_stats today db' 1 None) =
      (trips_count (get_daily_stats today three_trips 1 None) + 1)%Z /\
    (total_money (get_daily_stats today db' 1 None) ==
       total_money (get_daily_stats today three_trips 1 None) + 1500)%Q /\
    (total_distance (get_daily_stats today db' 1 None) ==
       total_distance (get_daily_stats today three_trips 1 None) + 6)%Q /\
    (avg_per_km (get_daily_stats today db' 1 None) *
       inject_Z (trips_count (get_daily_stats today db' 1 None)) ==
     avg_per_km (get_daily_stats today three_trips 1 None) *
       inject_Z (trips_count (get_daily_stats today three_trips 1 None)) + pk)%Q.
Proof.
  apply (add_trip_updates_daily_stats today today three_trips 1 "ana"
           1500 6 20 None).
  reflexivity.
Defined.

(** X3. A call of [add_trip] changes no other statistics: the daily
    statistics of another user, or of the same user for another day,
    and the weekly statistics of another user are what they were. *)
Theorem add_trip_keeps_other_stats (c c2 : clock) (db db' : database)
    (uid u2 : Z) (name : string) (t d : Q) (dur : Z) (rates : Q * Q)
    (day : option string) :
  add_trip c db uid name t d dur = Ok (db', rates) ->
  (u2 <> uid \/ date_or_today c2 day <> strftime_Ymd (now c) ->
   get_daily_stats c2 db' u2 day = get_daily_stats c2 db u2 day) /\
  (u2 <> uid -> get_weekly_stats c2 db' u2 = get_weekly_stats c2 db u2).
Proof.
  intros Hadd.
  destruct (add_trip_inserts c db uid name t d dur)
    as (pk & ph & _ & _ & Hadd').
  rewrite Hadd' in Hadd. injection Hadd as <- _. split.
  - intros H. unfold get_daily_stats. rewrite select_where_insert.
    destruct (on_day u2 (date_or_today c2 day) _) eqn:E;
      [|now rewrite app_nil_r].
    apply on_day_spec in E. cbn [user_id date] in E. destruct E as [E1 E2].
    destruct H as [H|H]; exfalso; apply H; symmetry; assumption.
  - intros H. unfold get_weekly_stats.
    destruct (sub_days (now c2) 7) as [w|e]; [|reflexivity]. cbn [bind].
    rewrite select_where_insert. unfold since at 2. cbn [user_id].
    rewrite (proj2 (Z.eqb_neq uid u2)) by congruence.
    cbn [andb]. now rewrite app_nil_r.
Qed.

Lemma add_trip_keeps_other_stats_witness :
  get_daily_stats today (added today 1 "ana" 1500 6 20 three_trips) 2 None =
    get_daily_stats today three_trips 2 None /\
  get_daily_stats today (added today 1 "ana" 1500 6 20 three_trips) 1
    (Some "2026-11-02"%string) =
    get_daily_stats today three_trips 1 (Some "2026-11-02"%string) /\
  get_weekly_stats today (added today 1 "ana" 1500 6 20 three_trips) 2 =
    get_weekly_stats today three_trips 2.
Proof.
  split; [|split].
  - apply (add_trip_keeps_other_stats today today three_trips
             (added today 1 "ana" 1500 6 20 three_trips) 1 2 "ana" 1500 6 20
             (1500 / 6, 1500 / (inject_Z 20 / 60))%Q None);
      [reflexivity|left; discriminate].
  - apply (add_trip_keeps_other_stats today today three_trips
             (added today 1 "ana" 1500 6 20 three_trips) 1 1 "ana" 1500 6 20
             (1500 / 6, 1500 / (inject_Z 20 / 60))%Q (Some "2026-11-02"%string));
      [reflexivity|right; discriminate].
  - apply (add_trip_keeps_other_stats today today three_trips
             (added today 1 "ana" 1500 6 20 three_trips) 1 2 "ana" 1500 6 20
             (1500 / 6, 1500 / (inject_Z 20 / 60))%Q None);
      [reflexivity|discriminate].
Defined.

(** X4. After [delete_daily_trips] for a user and a day, the daily
    statistics of that user for that day are the aggregate over no
    trips, and deleting a second time changes nothing. *)
Theorem delete_daily_trips_resets_stats (c c2 : clock) (db : database)
    (uid : Z) (day day2 : option string) :
  date_or_today c2 day2 = date_or_today c day ->
  get_daily_stats c2 (delete_daily_trips c db uid day) uid day2 = no_stats /\
  delete_daily_trips c2 (delete_daily_trips c db uid day) uid day2 =
    delete_daily_trips c db uid day.
Proof.
  intros Hday. unfold get_daily_stats, delete_daily_trips, delete_where,
    select_where. rewrite Hday. cbn [trips sqlite_sequence]. split.
  - rewrite filter_filter_negb. apply stats_of_nil.
  - f_equal. apply filter_filter_same.
Qed.

Lemma delete_daily_trips_resets_stats_witness :
  get_daily_stats today (delete_daily_trips today three_trips 1 None) 1
    (Some "2026-11-03"%string) = no_stats /\
  delete_daily_trips today (delete_daily_trips today three_trips 1 None) 1
    (Some "2026-11-03"%string) = delete_daily_trips today three_trips 1 None.
Proof.
  apply (delete_daily_trips_resets_stats today today three_trips 1 None
           (Some "2026-11-03"%string)).
  reflexivity.
Defined.

(** X5. [delete_daily_trips] changes no other statistics: the daily
    statistics of another user, or of the same user for another day,
    and the weekly statistics of another user are what they were. *)
Theorem delete_daily_trips_keeps_other_stats (c c2 : clock) (db : database)
    (uid u2 : Z) (day day2 : option string) :
  (u2 <> uid \/ date_or_today c2 day2 <> date_or_today c day ->
   get_daily_stats c2 (delete_daily_trips c db uid day) u2 day2 =
   get_daily_stats c2 db u2 day2) /\
  (u2 <> uid ->
   get_weekly_stats c2 (delete_daily_trips c db uid day) u2 =
   get_weekly_stats c2 db u2).
Proof.
  unfold get_daily_stats, get_weekly_stats, delete_daily_trips, delete_where,
    select_where. cbn [trips]. split.
  - intros H. f_equal. apply filter_filter_implied.
    intros r. apply on_day_other, H.
  - intros H. destruct (sub_days (now c2) 7) as [w|e]; [|reflexivity].
    cbn [bind]. do 2 f_equal. apply filter_filter_implied.
    intros r. apply since_other, H.
Qed.

Lemma delete_daily_trips_keeps_other_stats_witness :
  get_daily_stats today (delete_daily_trips today three_trips 1 None) 2 None =
    get_daily_stats today three_trips 2 None /\
  get_daily_stats today (delete_daily_trips today three_trips 1 None) 1
    (Some "2026-11-02"%string) =
    get_daily_stats today three_trips 1 (Some "2026-11-02"%string) /\
  get_weekly_stats today (delete_daily_trips today three_trips 1 None) 2 =
    get_weekly_stats today three_trips 2.
Proof.
  split; [|split].
  - apply (delete_daily_trips_keeps_other_stats today today three_trips 1 2
             None None). left. discriminate.
  - apply (delete_daily_trips_keeps_other_stats today today three_trips 1 1
             None (Some "2026-11-02"%string)). right. discriminate.
  - apply (delete_daily_trips_keeps_other_stats today today three_trips 1 2
             None None). discriminate.
Defined.

(** ** The weekly statistics and the days they cover *)

Lemma length_filter_implied {A : Type} (p q : A -> bool) (l : list A) :
  (forall x, p x = true -> q x = true) ->
  (List.length (filter p l) <= List.length (filter q l))%nat.
Proof.
  intros H. induction l as [|x l IH]; simpl; [lia|].
  destruct (p x) eqn:Ep.
  - rewrite (H x Ep). simpl. lia.
  - destruct (q x); simpl; lia.
Qed.

Lemma sub_days_le (d w x : datetime) (j : nat) :
  valid d = true -> (j <= 7)%nat ->
  sub_days d 7 = Ok w -> sub_days d j = Ok x -> le w x.
Proof.
  intros Hd Hj Hw Hx. destruct (Nat.eq_dec j 7) as [->|Hne].
  - rewrite Hw in Hx. injection Hx as <-. apply le_refl.
  - apply lt_le_incl.
    apply (sub_days_lt d x w j 7 Hd); [lia|exact Hx|exact Hw].
Qed.

(** X6. The weekly statistics cover today and each of the 7 days
    before it: for a clock after year 1, [get_weekly_stats] returns,
    and its count is at least the daily count of the user for any of
    these 8 dates. *)
Theorem weekly_count_covers_daily (c : clock) (db : database) (uid : Z)
    (j : nat) (x : datetime) :
  valid (now c) = true -> (MINYEAR < year (now c))%Z ->
  (j <= 7)%nat -> sub_days (now c) j = Ok x ->
  exists s,
    get_weekly_stats c db uid = Ok s /\
    (trips_count (get_daily_stats c db uid (Some (strftime_Ymd x))) <=
     trips_count s)%Z.
Proof.
  intros Hc Hy Hj Hx.
  destruct (sub_days_ok (now c) 7 Hc) as (w & Hw);
    [unfold MINYEAR in Hy; lia|lia|].
  exists (stats_of (select_where (since uid (strftime_Ymd w)) db)).
  split; [exact (get_weekly_stats_rows c db uid w Hw)|].
  unfold get_daily_stats. cbn [date_or_today].
  destruct (stats_of_spec (select_where (on_day uid (strftime_Ymd x)) db))
    as (-> & _).
  destruct (stats_of_spec (select_where (since uid (strftime_Ymd w)) db))
    as (-> & _).
  apply inj_le. unfold select_where. apply length_filter_implied.
  intros r Hr. apply on_day_spec in Hr. destruct Hr as [Hu Hd].
  apply (since_spec uid w x r
           (sub_days_valid (now c) w 7 Hc Hw)
           (sub_days_valid (now c) x j Hc Hx) Hd).
  split; [exact Hu|]. exact (sub_days_le (now c) w x j Hc Hj Hw Hx).
Qed.

Lemma weekly_count_covers_daily_witness :
  exists s,
    get_weekly_stats today (one_trip seven_days_ago) 1 = Ok s /\
    (trips_count (get_daily_stats today (one_trip seven_days_ago) 1
                    (Some (strftime_Ymd (now seven_days_ago)))) <=
     trips_count s)%Z.
Proof.
  apply (weekly_count_covers_daily today (one_trip seven_days_ago) 1 7
           (now seven_days_ago)).
  - reflexivity.
  - reflexivity.
  - lia.
  - reflexivity.
Defined.

(** X7. The rows [get_weekly_stats] aggregates, for a clock after
    year 1: among the rows whose date is a well-formed date, exactly
    those of the user dated today, on one of the 7 days before today,
    or after today (the query has a lower bound only). *)
Theorem weekly_stats_window (c : clock) (db : database) (uid : Z) :
  valid (now c) = true -> (MINYEAR < year (now c))%Z ->
  exists w,
    sub_days (now c) 7 = Ok w /\
    get_weekly_stats c db uid =
      Ok (stats_of (select_where (since uid (strftime_Ymd w)) db)) /\
    forall r x,
      valid x = true -> date r = strftime_Ymd x ->
      (In r (select_where (since uid (strftime_Ymd w)) db) <->
       In r (trips db) /\ user_id r = uid /\
       (lt (now c) x \/
        exists j, (j <= 7)%nat /\ sub_days (now c) j = Ok x)).
Proof.
  intros Hc Hy.
  destruct (sub_days_ok (now c) 7 Hc) as (w & Hw);
    [unfold MINYEAR in Hy; lia|lia|].
  exists w. split; [exact Hw|].
  split; [exact (get_weekly_stats_rows c db uid w Hw)|].
  intros r x Hx Hr. exact (weekly_window c db uid w x r Hc Hx Hw Hr).
Qed.

Lemma weekly_stats_window_witness :
  exists w,
    sub_days (now today) 7 = Ok w /\
    get_weekly_stats today old_trips 1 =
      Ok (stats_of (select_where (since 1 (strftime_Ymd w)) old_trips)) /\
    forall r x,
      valid x = true -> date r = strftime_Ymd x ->
      (In r (select_where (since 1 (strftime_Ymd w)) old_trips) <->
       In r (trips old_trips) /\ user_id r = 1%Z /\
       (lt (now today) x \/
        exists j, (j <= 7)%nat /\ sub_days (now today) j = Ok x)).
Proof.
  apply (weekly_stats_window today old_trips 1); reflexivity.
Defined.

(** ** The weekly statistics as the sum of the daily ones *)

Lemma le_trans (a b c : datetime) : le a b -> le b c -> le a c.
Proof. destruct a, b, c. intros H1 H2. order_cases. Qed.

Lemma lt_irrefl (a : datetime) : ~ lt a a.
Proof. unfold lt. rewrite compare_refl. discriminate. Qed.

Lemma dated_until_later (d d' : datetime) (r : trip) :
  le d d' -> dated_until d r -> dated_until d' r.
Proof.
  intros Hle (x & Hx & Hr & Hxd). exists x.
  split; [exact Hx|]. split; [exact Hr|]. exact (le_trans x d d' Hxd Hle).
Qed.

Lemma history_dated (d : datetime) (db : database) :
  history d db -> valid d = true /\ Forall (dated_until d) (trips db).
Proof.
  induction 1 as [d Hd|d c m db db' rep _ [_ IH] Hc Hle Hrun].
  - split; [exact Hd|constructor].
  - split; [exact Hc|].
    assert (Forall (dated_until (now c)) (trips db)) as IH'.
    { eapply Forall_impl; [|exact IH]. intros r.
      apply dated_until_later, Hle. }
    apply run_rows in Hrun. destruct m.
    + destruct Hrun as (pk & ph & _ & _ & ->). unfold insert. cbn [trips].
      apply Forall_app. split; [exact IH'|].
      constructor; [|constructor]. exists (now c).
      split; [exact Hc|]. split; [reflexivity|apply le_refl].
    + now subst.
    + now subst.
    + subst. unfold delete_where. cbn [trips].
      rewrite Forall_forall in *. intros r Hr. apply filter_In in Hr.
      apply IH', Hr.
Qed.

Lemma In_days_back (d : datetime) (n : nat) (day : string) :
  In day (days_back d n) <->
  exists j x, (j < n)%nat /\ sub_days d j = Ok x /\ day = strftime_Ymd x.
Proof.
  induction n as [|n IH]; cbn [days_back].
  - split; [intros []|intros (j & _ & Hj & _); lia].
  - rewrite in_app_iff, IH. split.
    + intros [(j & x & Hj & Hx & Hd)|H].
      * exists j, x. split; [lia|auto].
      * destruct (sub_days d n) as [x|e] eqn:E; [|destruct H].
        destruct H as [<-|[]]. exists n, x. split; [lia|auto].
    + intros (j & x & Hj & Hx & Hd).
      destruct (Nat.eq_dec j n) as [->|Hne].
      * right. rewrite Hx. left. symmetry. exact Hd.
      * left. exists j, x. split; [lia|auto].
Qed.

Lemma NoDup_days_back (d : datetime) (n : nat) :
  valid d = true -> NoDup (days_back d n).
Proof.
  intros Hd. induction n as [|n IH]; cbn [days_back]; [constructor|].
  destruct (sub_days d n) as [x|e] eqn:E; [|now rewrite app_nil_r].
  apply NoDup_app; [exact IH|repeat constructor; intros []|].
  intros day Hin [<-|[]]. apply In_days_back in Hin.
  destruct Hin as (j & y & Hj & Hy & Heq).
  pose proof (sub_days_valid d x n Hd E) as Vx.
  pose proof (sub_days_valid d y j Hd Hy) as Vy.
  apply (strftime_inj x y Vx Vy) in Heq. subst y.
  exact (lt_irrefl x (sub_days_lt d x x j n Hd Hj Hy E)).
Qed.

(** For a row not dated after today, the WHERE clause of the weekly
    query tests whether its date is one of the last 8 dates. *)
Lemma since_days_back (d w : datetime) (uid : Z) (r : trip) :
  valid d = true -> sub_days d 7 = Ok w -> dated_until d r ->
  (since uid (strftime_Ymd w) r = true <->
   user_id r = uid /\ In (date r) (days_back d 8)).
Proof.
  intros Hd Hw (x & Hx & Hr & Hxd).
  rewrite (since_spec uid w x r (sub_days_valid d w 7 Hd Hw) Hx Hr).
  rewrite (sub_days_window d w x 7 Hd Hx Hw), In_days_back.
  split.
  - intros (Hu & [Hlt|(j & Hj & Hjx)]).
    + exfalso. exact (lt_not_le d x Hlt Hxd).
    + split; [exact Hu|]. exists j, x. split; [lia|auto].
  - intros (Hu & j & y & Hj & Hy & Hdy). split; [exact Hu|]. right.
    rewrite Hr in Hdy.
    apply (strftime_inj x y Hx (sub_days_valid d y j Hd Hy)) in Hdy. subst y.
    exists j. split; [lia|exact Hy].
Qed.

Lemma sum_Z_cons (x : Z) (l : list Z) : sum_Z (x :: l) = (x + sum_Z l)%Z.
Proof. reflexivity. Qed.

Lemma sum_list_cons (x : Q) (l : list Q) : sum_list (x :: l) = (x + sum_list l)%Q.
Proof. reflexivity. Qed.

Section SplitByDay.

Variables (A B : Type) (p : A -> bool) (q : B -> A -> bool).

Lemma count_cons (days : list B) (r : A) (rows : list A) :
  sum_Z (map (fun day => Z.of_nat (List.length (filter (q day) (r :: rows))))
             days) =
  (Z.of_nat (List.length (filter (fun day => q day r) days)) +
   sum_Z (map (fun day => Z.of_nat (List.length (filter (q day) rows))) days))%Z.
Proof.
  induction days as [|day days IH]; [reflexivity|].
  cbn [map]. rewrite !sum_Z_cons, IH. cbn [filter].
  destruct (q day r); cbn [List.length]; lia.
Qed.

Lemma count_split (days : list B) (rows : list A) :
  Forall (splits p q days) rows ->
  Z.of_nat (List.length (filter p rows)) =
  sum_Z (map (fun day => Z.of_nat (List.length (filter (q day) rows))) days).
Proof.
  induction 1 as [|r rows Hr _ IH].
  - cbn [filter List.length]. induction days as [|day days IHd];
      [reflexivity|]. cbn [map]. rewrite sum_Z_cons, <- IHd. reflexivity.
  - rewrite count_cons, <- IH, Hr. cbn [filter].
    destruct (p r); cbn [List.length]; lia.
Qed.

Variable f : A -> Q.

Lemma sum_cons (days : list B) (r : A) (rows : list A) :
  (sum_list (map (fun day => sum_list (map f (filter (q day) (r :: rows))))
             days) ==
   inject_Z (Z.of_nat (List.length (filter (fun day => q day r) days))) * f r +
   sum_list (map (fun day => sum_list (map f (filter (q day) rows))) days))%Q.
Proof.
  induction days as [|day days IH].
  - cbn. rewrite Qmult_0_l, Qplus_0_l. reflexivity.
  - cbn [map]. rewrite !sum_list_cons, IH. cbn [filter].
    destruct (q day r); cbn [List.length map].
    + rewrite sum_list_cons, Nat2Z.inj_succ, <- Z.add_1_l, inject_Z_plus. ring.
    + ring.
Qed.

Lemma sum_split (days : list B) (rows : list A) :
  Forall (splits p q days) rows ->
  (sum_list (map f (filter p rows)) ==
   sum_list (map (fun day => sum_list (map f (filter (q day) rows))) days))%Q.
Proof.
  induction 1 as [|r rows Hr _ IH].
  - cbn [filter map]. induction days as [|day days IHd];
      [reflexivity|]. cbn [map]. rewrite sum_list_cons, <- IHd. reflexivity.
  - rewrite sum_cons, <- IH, Hr. cbn [filter].
    destruct (p r); cbn [List.length map]; [rewrite sum_list_cons|]; ring.
Qed.

End SplitByDay.

Lemma filter_eqb_notin (s : string) (l : list string) :
  ~ In s l -> filter (String.eqb s) l = [].
Proof.
  induction l as [|x l IH]; [reflexivity|]. intros H. cbn [filter].
  destruct (String.eqb_spec s x) as [->|_]; [exfalso; apply H; now left|].
  apply IH. intros Hin. apply H. now right.
Qed.

Lemma filter_eqb_In (s : string) (l : list string) :
  NoDup l -> In s l -> List.length (filter (String.eqb s) l) = 1%nat.
Proof.
  induction 1 as [|x l Hx _ IH]; [intros []|]. intros Hin. cbn [filter].
  destruct (String.eqb_spec s x) as [->|Hne].
  - rewrite (filter_eqb_notin x l Hx). reflexivity.
  - destruct Hin as [->|Hin]; [contradiction|]. apply IH, Hin.
Qed.

Lemma weekly_splits (d w : datetime) (uid : Z) (r : trip) :
  valid d = true -> sub_days d 7 = Ok w -> dated_until d r ->
  splits (since uid (strftime_Ymd w)) (on_day uid) (days_back d 8) r.
Proof.
  intros Hd Hw Hr. unfold splits.
  pose proof (since_days_back d w uid r Hd Hw Hr) as Hs.
  destruct (Z.eqb_spec (user_id r) uid) as [Hu|Hu].
  - rewrite (filter_ext (fun day => on_day uid day r) (String.eqb (date r)))
      by (intros day; unfold on_day; rewrite Hu, Z.eqb_refl; reflexivity).
    destruct (since uid (strftime_Ymd w) r).
    + apply filter_eqb_In; [apply NoDup_days_back, Hd|].
      now apply Hs.
    + rewrite filter_eqb_notin; [reflexivity|].
      intros Hin. assert (false = true) by (apply Hs; auto). discriminate.
  - rewrite (filter_ext (fun day => on_day uid day r) (fun _ => false))
      by (intros day; unfold on_day;
          rewrite (proj2 (Z.eqb_neq (user_id r) uid) Hu); reflexivity).
    unfold since. rewrite (proj2 (Z.eqb_neq (user_id r) uid) Hu). cbn [andb].
    clear Hs. induction (days_back d 8) as [|x l IH]; [reflexivity|exact IH].
Qed.

Lemma sum_list_map_ext {A : Type} (g h : A -> Q) (l : list A) :
  (forall x, g x == h x)%Q -> (sum_list (map g l) == sum_list (map h l))%Q.
Proof.
  intros H. induction l as [|x l IH]; [reflexivity|].
  cbn [map]. rewrite !sum_list_cons, IH, (H x). reflexivity.
Qed.

(** X9. Under a clock that never runs backwards, the weekly
    statistics are the daily statistics of today and of the 7 days
    before it, added up: the weekly count is the sum of the 8 daily
    counts, and the weekly total fare and total distance are the sums
    of the 8 daily totals. *)
Theorem weekly_stats_sum_of_daily (d : datetime) (c : clock) (db : database)
    (uid : Z) :
  history d db -> valid (now c) = true -> le d (now c) ->
  (MINYEAR < year (now c))%Z ->
  exists s,
    get_weekly_stats c db uid = Ok s /\
    trips_count s =
      sum_Z (map (fun day => trips_count (get_daily_stats c db uid (Some day)))
                 (days_back (now c) 8)) /\
    (total_money s ==
       sum_list (map (fun day =>
                        total_money (get_daily_stats c db uid (Some day)))
                     (days_back (now c) 8)))%Q /\
    (total_distance s ==
       sum_list (map (fun day =>
                        total_distance (get_daily_stats c db uid (Some day)))
                     (days_back (now c) 8)))%Q.
Proof.
  intros Hh Hc Hle Hy.
  destruct (sub_days_ok (now c) 7 Hc) as (w & Hw);
    [unfold MINYEAR in Hy; lia|lia|].
  exists (stats_of (select_where (since uid (strftime_Ymd w)) db)).
  split; [exact (get_weekly_stats_rows c db uid w Hw)|].
  assert (Forall (splits (since uid (strftime_Ymd w)) (on_day uid)
                    (days_back (now c) 8)) (trips db)) as Hsplit.
  { destruct (history_dated d db Hh) as [_ Hdated].
    eapply Forall_impl; [|exact Hdated]. intros r Hr.
    apply (weekly_splits (now c) w uid r Hc Hw).
    exact (dated_until_later d (now c) r Hle Hr). }
  unfold get_daily_stats, select_where. cbn [date_or_today].
  destruct (stats_of_spec (filter (since uid (strftime_Ymd w)) (trips db)))
    as (-> & -> & -> & _).
  split; [|split].
  - rewrite (count_split _ _ _ _ _ _ Hsplit). f_equal. apply map_ext.
    intros day. symmetry. apply stats_of_spec.
  - rewrite (sum_split _ _ _ _ tariff _ _ Hsplit). apply sum_list_map_ext.
    intros day. symmetry. apply stats_of_spec.
  - rewrite (sum_split _ _ _ _ distance _ _ Hsplit). apply sum_list_map_ext.
    intros day. symmetry. apply stats_of_spec.
Qed.

Lemma history_added (d : datetime) (c : clock) (uid : Z) (name : string)
    (t q : Q) (dur : Z) (db : database) :
  history d db -> valid (now c) = true -> le d (now c) ->
  history (now c) (added c uid name t q dur db).
Proof.
  intros Hh Hc Hle.
  destruct (add_trip_inserts c db uid name t q dur)
    as (pk & ph & _ & _ & Hadd).
  apply (history_run d c (AddTrip uid name t q dur) db _ (Rates pk ph)
           Hh Hc Hle).
  unfold added. cbn [run]. rewrite Hadd. reflexivity.
Qed.

Lemma history_three_trips : history (now today) three_trips.
Proof.
  unfold three_trips.
  apply (history_added (now today)); [|reflexivity|apply le_refl].
  apply (history_added (now yesterday)); [|reflexivity|discriminate].
  apply (history_added (now yesterday)); [|reflexivity|apply le_refl].
  apply history_init. reflexivity.
Qed.

Lemma weekly_stats_sum_of_daily_witness :
  exists s,
    get_weekly_stats today three_trips 1 = Ok s /\
    trips_count s =
      sum_Z (map (fun day =>
                    trips_count (get_daily_stats today three_trips 1 (Some day)))
                 (days_back (now today) 8)) /\
    (total_money s ==
       sum_list (map (fun day =>
                        total_money
                          (get_daily_stats today three_trips 1 (Some day)))
                     (days_back (now today) 8)))%Q /\
    (total_distance s ==
       sum_list (map (fun day =>
                        total_distance
                          (get_daily_stats today three_trips 1 (Some day)))
                     (days_back (now today) 8)))%Q.
Proof.
  apply (weekly_stats_sum_of_daily (now today) today three_trips 1).
  - exact history_three_trips.
  - reflexivity.
  - apply le_refl.
  - reflexivity.
Defined.

End StoreLaws.

(** * Properties of the command handlers *)

Module BotFacts.

Import Python PythonFacts Datetime DatetimeFacts.
Import Sqlite SqliteFacts DidiTrackerDB Notions Laws DidiTrackerDBFacts.
Import StoreLaws.

Section Handlers.

Variable float : string -> option Q.
Variable int : string -> option Z.
Variable META_PER_KM : Z.

(** ** The handler of [/add] *)

Lemma le0_false (x : Q) : Bot.le0 x = false <-> (0 < x)%Q.
Proof.
  unfold Bot.le0. destruct (Qle_bool x 0) eqn:E.
  - apply Qle_bool_iff in E. split; [discriminate|].
    intros H. exfalso. exact (Qlt_not_le 0 x H E).
  - split; [|reflexivity]. intros _.
    destruct (Qlt_le_dec 0 x) as [H|H]; [exact H|].
    apply Qle_bool_iff in H. congruence.
Qed.

Lemma add_trip_positive (c : clock) (db : database) (uid : Z) (name : string)
    (t d : Q) (dur : Z) :
  (0 < d)%Q -> (0 < dur)%Z ->
  DidiTrackerDB.add_trip c db uid name t d dur =
  Ok (insert db (current_timestamp c) uid name t d dur
        (t / d) (t / (inject_Z dur / 60)) (strftime_Ymd (now c)),
      (t / d, t / (inject_Z dur / 60)))%Q.
Proof.
  intros Hd Hdur. unfold DidiTrackerDB.add_trip.
  rewrite (per_distance_rate_pos t d Hd), (per_time_rate_pos t dur Hdur).
  reflexivity.
Qed.

(** The database after [/add]: the one before, or that with one more
    row, of the sender. *)
Lemma add_handler_database (c : clock) (db : database)
    (u : Bot.effective_user) (args : list string) :
  fst (Bot.add_trip float int META_PER_KM c db u args) = db \/
  exists t d dur pk ph,
    fst (Bot.add_trip float int META_PER_KM c db u args) =
    insert db (current_timestamp c) (Bot.id u) (Bot.display_name u) t d dur
      pk ph (strftime_Ymd (now c)).
Proof.
  unfold Bot.add_trip.
  destruct (negb _); [left; reflexivity|].
  destruct (float _) as [t|]; [|left; reflexivity].
  destruct (float _) as [d|]; [|left; reflexivity].
  destruct (int _) as [dur|]; [|left; reflexivity].
  destruct (_ || _)%bool; [left; reflexivity|].
  unfold call_add_trip. destruct (_ && _)%bool; [|left; reflexivity].
  destruct (add_trip_inserts c db (Bot.id u) (Bot.display_name u) t d dur)
    as (pk & ph & _ & _ & ->).
  right. exists t, d, dur, pk, ph. reflexivity.
Qed.

(** ** The handler of [/reset] *)

(** What [/reset] does, case by case: today's trips of the sender are
    deleted when the first argument reads [confirm] in any letter
    case, and nothing changes otherwise. *)
Lemma reset_handler_cases (c : clock) (db : database)
    (u : Bot.effective_user) (args : list string) :
  match Bot.reset_data c db u args with
  | (db', Bot.TodayDeleted) =>
      (exists a rest, args = a :: rest /\ Bot.lower a = "confirm"%string) /\
      db' = delete_daily_trips c db (Bot.id u) None
  | (db', Bot.ConfirmRequired) =>
      db' = db /\
      (args = [] \/
       exists a rest, args = a :: rest /\ Bot.lower a <> "confirm"%string)
  | (_, _) => False
  end.
Proof.
  unfold Bot.reset_data. destruct args as [|a rest]; cbn [List.length nth].
  - cbn. split; [reflexivity|left; reflexivity].
  - cbn [Nat.eqb orb].
    destruct (String.eqb_spec (Bot.lower a) "confirm") as [E|E]; cbn [negb].
    + split; [|reflexivity]. exists a, rest. auto.
    + split; [reflexivity|]. right. exists a, rest. auto.
Qed.

Lemma reset_confirmed (c : clock) (db : database) (u : Bot.effective_user)
    (a : string) (rest : list string) :
  Bot.lower a = "confirm"%string ->
  Bot.reset_data c db u (a :: rest) =
  (delete_daily_trips c db (Bot.id u) None, Bot.TodayDeleted).
Proof.
  intros E. unfold Bot.reset_data. cbn [List.length nth Nat.eqb orb].
  rewrite E. reflexivity.
Qed.

(** X13. After a confirmed [/reset], [/stats] of the sender on the
    same day replies that there are no trips; [/stats] and [/week] of
    every other user, and [/stats] of the sender on any other day,
    reply what they would have replied without the reset. *)
Theorem reset_then_stats (c : clock) (db : database)
    (u : Bot.effective_user) (a : string) (rest : list string) :
  Bot.lower a = "confirm"%string ->
  Bot.stats META_PER_KM c (fst (Bot.reset_data c db u (a :: rest))) u =
    Bot.NoTripsToday /\
  (forall c2 u2,
     Bot.id u2 <> Bot.id u ->
     Bot.stats META_PER_KM c2 (fst (Bot.reset_data c db u (a :: rest))) u2 =
       Bot.stats META_PER_KM c2 db u2 /\
     Bot.week_stats META_PER_KM c2 (fst (Bot.reset_data c db u (a :: rest))) u2 =
       Bot.week_stats META_PER_KM c2 db u2) /\
  (forall c2,
     strftime_Ymd (now c2) <> strftime_Ymd (now c) ->
     Bot.stats META_PER_KM c2 (fst (Bot.reset_data c db u (a :: rest))) u =
       Bot.stats META_PER_KM c2 db u).
Proof.
  intros E. rewrite (reset_confirmed c db u a rest E). cbn [fst].
  unfold Bot.stats, Bot.week_stats, get_daily_stats, get_weekly_stats,
    delete_daily_trips, delete_where, select_where.
  cbn [trips date_or_today]. split; [|split].
  - rewrite filter_filter_negb. reflexivity.
  - intros c2 u2 Hu. split.
    + rewrite (filter_filter_implied (on_day (Bot.id u2) (strftime_Ymd (now c2)))
                 (fun r => negb (on_day (Bot.id u) (strftime_Ymd (now c)) r)));
        [reflexivity|].
      intros r. apply on_day_other. left. exact Hu.
    + destruct (sub_days (now c2) 7) as [w|e]; [|reflexivity]. cbn [bind].
      rewrite (filter_filter_implied (since (Bot.id u2) (strftime_Ymd w))
                 (fun r => negb (on_day (Bot.id u) (strftime_Ymd (now c)) r)));
        [reflexivity|].
      intros r. apply since_other, Hu.
  - intros c2 Hd.
    rewrite (filter_filter_implied (on_day (Bot.id u) (strftime_Ymd (now c2)))
               (fun r => negb (on_day (Bot.id u) (strftime_Ymd (now c)) r)));
      [reflexivity|].
    intros r. apply on_day_other. right. exact Hd.
Qed.

(** ** [/add] followed by [/stats] and [/week] *)

(** X14. After an accepted [/add] (three arguments that convert to
    strictly positive finite numbers, with a duration and a sender id
    that fit a signed 64-bit integer), the sender's [/stats] on the
    same day shows the statistics of the day with one more trip and
    the fare added to the total, and, for a clock after year 1, the
    sender's [/week] shows statistics with at least one trip: neither
    replies that there are no trips. *)
Theorem add_then_stats (c : clock) (db : database) (u : Bot.effective_user)
    (a0 a1 a2 : string) (t d : Q) (dur : Z) :
  float a0 = Some t -> float a1 = Some d -> int a2 = Some dur ->
  (0 < t)%Q -> (0 < d)%Q -> (0 < dur)%Z ->
  fits_integer (Bot.id u) = true -> fits_integer dur = true ->
  (exists met s,
     Bot.stats META_PER_KM c
       (fst (Bot.add_trip float int META_PER_KM c db u [a0; a1; a2])) u =
       Bot.TodayStats met s /\
     trips_count s =
       (trips_count (get_daily_stats c db (Bot.id u) None) + 1)%Z /\
     (total_money s ==
        total_money (get_daily_stats c db (Bot.id u) None) + t)%Q) /\
  (valid (now c) = true -> (MINYEAR < year (now c))%Z ->
   exists met s,
     Bot.week_stats META_PER_KM c
       (fst (Bot.add_trip float int META_PER_KM c db u [a0; a1; a2])) u =
       Bot.WeekStats met s /\
     (0 < trips_count s)%Z).
Proof.
  intros E0 E1 E2 Ht Hd Hdur Fu Fd.
  assert (fst (Bot.add_trip float int META_PER_KM c db u [a0; a1; a2]) =
          insert db (current_timestamp c) (Bot.id u) (Bot.display_name u)
            t d dur (t / d) (t / (inject_Z dur / 60)) (strftime_Ymd (now c)))
    as ->.
  { unfold Bot.add_trip. cbn [List.length Nat.eqb negb nth].
    rewrite E0, E1, E2.
    rewrite (proj2 (le0_false t) Ht), (proj2 (le0_false d) Hd). cbn [orb].
    destruct (Z.leb_spec dur 0) as [H|_]; [lia|].
    unfold call_add_trip. rewrite Fu, Fd. cbn [andb].
    rewrite (add_trip_positive c db (Bot.id u) (Bot.display_name u) t d dur
               Hd Hdur). reflexivity. }
  split.
  - unfold Bot.stats, get_daily_stats. cbn [date_or_today].
    rewrite select_where_insert, on_day_inserted.
    set (rows := select_where (on_day (Bot.id u) (strftime_Ymd (now c))) db).
    set (r := mk_trip _ _ _ _ _ _ _ _ _ _).
    destruct (stats_of_spec rows) as (Hc & Hm & _).
    destruct (stats_of_spec (rows ++ [r])) as (Hc' & Hm' & _).
    assert (trips_count (stats_of (rows ++ [r])) =
            (trips_count (stats_of rows) + 1)%Z) as Hn.
    { rewrite Hc, Hc', length_app. cbn [List.length]. lia. }
    destruct (Z.eqb_spec (trips_count (stats_of (rows ++ [r]))) 0) as [H0|_].
    { rewrite Hn, Hc in H0. lia. }
    eexists _, _. split; [reflexivity|]. split; [exact Hn|].
    rewrite Hm, Hm', map_app. cbn [map]. rewrite sum_list_snoc. reflexivity.
  - intros Hv Hy. unfold Bot.week_stats.
    destruct (sub_days_ok (now c) 7 Hv) as (w & Hw);
      [unfold MINYEAR in Hy; lia|lia|].
    rewrite (get_weekly_stats_rows c _ (Bot.id u) w Hw).
    rewrite select_where_insert.
    set (r := mk_trip _ _ _ _ _ _ _ _ _ _).
    assert (since (Bot.id u) (strftime_Ymd w) r = true) as ->.
    { apply (since_spec (Bot.id u) w (now c) r
               (sub_days_valid (now c) w 7 Hv Hw) Hv eq_refl).
      split; [reflexivity|].
      exact (sub_days_le (now c) w (now c) 0 Hv (Nat.le_0_l 7) Hw eq_refl). }
    set (rows := select_where (since (Bot.id u) (strftime_Ymd w)) db).
    destruct (stats_of_spec (rows ++ [r])) as (Hc' & _).
    assert (0 < trips_count (stats_of (rows ++ [r])))%Z as Hpos.
    { rewrite Hc', length_app. cbn [List.length]. lia. }
    destruct (Z.eqb_spec (trips_count (stats_of (rows ++ [r]))) 0) as [H0|_];
      [lia|].
    eexists _, _. split; [reflexivity|exact Hpos].
Qed.

End Handlers.

Lemma reset_then_stats_witness :
  Bot.stats 350 today
    (fst (Bot.reset_data today three_trips Bot.ana ["Confirm"%string]))
    Bot.ana = Bot.NoTripsToday /\
  Bot.stats 350 today
    (fst (Bot.reset_data today three_trips Bot.ana ["Confirm"%string]))
    Bot.luis = Bot.stats 350 today three_trips Bot.luis /\
  Bot.stats 350 yesterday
    (fst (Bot.reset_data today three_trips Bot.ana ["Confirm"%string]))
    Bot.ana = Bot.stats 350 yesterday three_trips Bot.ana.
Proof.
  destruct (reset_then_stats 350 today three_trips Bot.ana "Confirm" [])
    as (H1 & H2 & H3); [reflexivity|].
  split; [exact H1|]. split.
  - apply (H2 today Bot.luis). discriminate.
  - apply (H3 yesterday). discriminate.
Defined.

Lemma add_then_stats_witness :
  exists met s,
    Bot.stats 350 today
      (fst (Bot.add_trip Bot.sample_float Bot.sample_int 350 today three_trips
              Bot.ana ["1500"; "6"; "20"]%string)) Bot.ana =
      Bot.TodayStats met s /\
    trips_count s =
      (trips_count (get_daily_stats today three_trips 1 None) + 1)%Z /\
    (total_money s ==
       total_money (get_daily_stats today three_trips 1 None) + 1500)%Q.
Proof.
  apply (add_then_stats Bot.sample_float Bot.sample_int 350 today three_trips
           Bot.ana "1500" "6" "20" 1500 6 20); reflexivity.
Defined.

Section Replies.

Variable META_PER_KM : Z.

(** ** The handlers of [/stats] and [/week] *)

Lemma sub_days_raises (d : datetime) (k : nat) (e : exn) :
  sub_days d k = Raise e -> e = OverflowError.
Proof.
  induction k as [|k IH]; cbn [sub_days]; [discriminate|].
  destruct (sub_days d k) as [a|e']; cbn [bind].
  - unfold prev_day. repeat destruct (_ <? _)%Z; try discriminate.
    intros [= <-]. reflexivity.
  - intros [= <-]. apply IH. reflexivity.
Qed.

Lemma trips_count_zero (rows : list trip) :
  trips_count (stats_of rows) = 0%Z <-> rows = [].
Proof.
  destruct (stats_of_spec rows) as (-> & _). destruct rows; simpl; split;
    intros H; try reflexivity; try discriminate; lia.
Qed.

(** X15. What [/stats] and [/week] reply.  Each replies that there are
    no trips exactly when its query selects no row, and otherwise
    shows the statistics of the class, marked as meeting the target
    exactly when the average rate is at least the target.  [/week]
    replies with the failure text only when the date 7 days before
    today does not exist, which no clock after year 1 allows. *)
Theorem stats_handlers_cases (c : clock) (db : database)
    (u : Bot.effective_user) :
  match Bot.stats META_PER_KM c db u with
  | Bot.NoTripsToday =>
      select_where (on_day (Bot.id u) (strftime_Ymd (now c))) db = []
  | Bot.TodayStats met s =>
      s = get_daily_stats c db (Bot.id u) None /\
      select_where (on_day (Bot.id u) (strftime_Ymd (now c))) db <> [] /\
      (met = true <-> inject_Z META_PER_KM <= avg_per_km s)%Q
  | _ => False
  end /\
  match Bot.week_stats META_PER_KM c db u with
  | Bot.NoTripsThisWeek =>
      exists w, sub_days (now c) 7 = Ok w /\
                select_where (since (Bot.id u) (strftime_Ymd w)) db = []
  | Bot.WeekStats met s =>
      get_weekly_stats c db (Bot.id u) = Ok s /\ (0 < trips_count s)%Z /\
      (met = true <-> inject_Z META_PER_KM <= avg_per_km s)%Q
  | Bot.StatsFailed =>
      sub_days (now c) 7 = Raise OverflowError /\
      (valid (now c) = true -> (year (now c) <= MINYEAR)%Z)
  | _ => False
  end.
Proof.
  split.
  - unfold Bot.stats, get_daily_stats. cbn [date_or_today].
    set (rows := select_where _ db).
    destruct (Z.eqb_spec (trips_count (stats_of rows)) 0) as [H|H].
    + apply trips_count_zero, H.
    + split; [reflexivity|]. split.
      * intros E. apply H, trips_count_zero, E.
      * unfold Bot.ge. apply Qle_bool_iff.
  - unfold Bot.week_stats, get_weekly_stats.
    destruct (sub_days (now c) 7) as [w|e] eqn:Hw; cbn [bind].
    + set (rows := select_where _ db).
      destruct (Z.eqb_spec (trips_count (stats_of rows)) 0) as [H|H].
      * exists w. split; [reflexivity|]. apply trips_count_zero, H.
      * split; [reflexivity|]. split.
        -- destruct (stats_of_spec rows) as (Hc & _). rewrite Hc in *. lia.
        -- unfold Bot.ge. apply Qle_bool_iff.
    + assert (e = OverflowError) as ->.
      { exact (sub_days_raises (now c) 7 e Hw). }
      split; [reflexivity|]. intros Hv.
      destruct (Z_lt_le_dec MINYEAR (year (now c))) as [Hy|Hy]; [|exact Hy].
      destruct (sub_days_ok (now c) 7 Hv) as (w & Hw');
        [unfold MINYEAR in Hy; lia|lia|congruence].
Qed.

(** ** The target and the daily average *)

Lemma sum_list_ge (l : list Q) (lo : Q) :
  Forall (fun q => lo <= q)%Q l ->
  (lo * inject_Z (Z.of_nat (List.length l)) <= sum_list l)%Q.
Proof.
  induction 1 as [|q l Hq _ IH].
  - simpl. rewrite Qmult_0_r. apply Qle_refl.
  - cbn [List.length sum_list fold_right].
    rewrite Nat2Z.inj_succ, <- Z.add_1_l, inject_Z_plus.
    rewrite Qmult_plus_distr_r, Qmult_1_r.
    apply Qplus_le_compat; assumption.
Qed.

Lemma sum_list_lt (l : list Q) (hi : Q) :
  l <> [] -> Forall (fun q => q < hi)%Q l ->
  (sum_list l < hi * inject_Z (Z.of_nat (List.length l)))%Q.
Proof.
  intros Hne H. induction H as [|q l Hq Hl IH]; [contradiction|].
  cbn [List.length sum_list fold_right].
  rewrite Nat2Z.inj_succ, <- Z.add_1_l, inject_Z_plus.
  rewrite Qmult_plus_distr_r, Qmult_1_r.
  destruct l as [|q' l].
  - simpl. rewrite Qmult_0_r, !Qplus_0_r. exact Hq.
  - apply Qplus_lt_le_compat; [exact Hq|].
    apply Qlt_le_weak, IH. discriminate.
Qed.

Lemma length_positive {A : Type} (l : list A) :
  l <> [] -> (0 < inject_Z (Z.of_nat (List.length l)))%Q.
Proof.
  destruct l; [contradiction|]. intros _. unfold Qlt.
  cbn [List.length]. simpl. lia.
Qed.

(** X16. The target mark of [/stats] follows the trips of the day: if
    the sender has trips today and every one of them has a rate per km
    of at least the target, the reply is marked as meeting the target;
    if every one is below the target, it is marked as not meeting
    it. *)
Theorem stats_target_mark (c : clock) (db : database)
    (u : Bot.effective_user) :
  select_where (on_day (Bot.id u) (strftime_Ymd (now c))) db <> [] ->
  (Forall (fun r => inject_Z META_PER_KM <= per_km r)%Q
     (select_where (on_day (Bot.id u) (strftime_Ymd (now c))) db) ->
   Bot.stats META_PER_KM c db u =
   Bot.TodayStats true (get_daily_stats c db (Bot.id u) None)) /\
  (Forall (fun r => per_km r < inject_Z META_PER_KM)%Q
     (select_where (on_day (Bot.id u) (strftime_Ymd (now c))) db) ->
   Bot.stats META_PER_KM c db u =
   Bot.TodayStats false (get_daily_stats c db (Bot.id u) None)).
Proof.
  intros Hne. unfold Bot.stats, get_daily_stats. cbn [date_or_today].
  set (rows := select_where _ db) in *.
  destruct (Z.eqb_spec (trips_count (stats_of rows)) 0) as [H|_];
    [apply trips_count_zero in H; contradiction|].
  destruct (stats_of_spec rows) as (_ & _ & _ & Ha).
  assert (map per_km rows <> []) as Hne'
    by (intros E; apply map_eq_nil in E; contradiction).
  pose proof (length_positive (map per_km rows) Hne') as Hn.
  split; intros Hall; f_equal; unfold Bot.ge.
  - apply Qle_bool_iff. rewrite Ha. unfold mean.
    apply Qle_shift_div_l; [exact Hn|].
    apply sum_list_ge. rewrite Forall_map. exact Hall.
  - destruct (Qle_bool _ _) eqn:E; [|reflexivity].
    apply Qle_bool_iff in E. rewrite Ha in E. exfalso.
    apply (Qlt_not_le (mean (map per_km rows)) (inject_Z META_PER_KM));
      [|exact E].
    unfold mean. apply Qlt_shift_div_r; [exact Hn|].
    apply sum_list_lt; [exact Hne'|]. rewrite Forall_map. exact Hall.
Qed.

End Replies.

Lemma stats_target_mark_witness :
  Bot.stats 200 today three_trips Bot.ana =
    Bot.TodayStats true (get_daily_stats today three_trips 1 None) /\
  Bot.stats 350 today three_trips Bot.ana =
    Bot.TodayStats false (get_daily_stats today three_trips 1 None).
Proof.
  split.
  - apply (stats_target_mark 200 today three_trips Bot.ana).
    + discriminate.
    + repeat constructor; discriminate.
  - apply (stats_target_mark 350 today three_trips Bot.ana).
    + discriminate.
    + repeat constructor.
Defined.

Section Isolation.

Variable float : string -> option Q.
Variable int : string -> option Z.
Variable META_PER_KM : Z.

(** ** One user's commands and another user's statistics *)

Lemma other_user_rows (db db' : database) (uid : Z) :
  (exists r, user_id r = uid /\ trips db' = (trips db ++ [r])%list) \/
  (exists day, trips db' =
               filter (fun r => negb (on_day uid day r)) (trips db)) \/
  db' = db ->
  forall p : trip -> bool,
    (forall r, p r = true -> user_id r <> uid) ->
    filter p (trips db') = filter p (trips db).
Proof.
  intros [(r & Hu & ->)|[(day & ->)| ->]] p Hp; [| |reflexivity].
  - rewrite filter_app. cbn [filter].
    destruct (p r) eqn:E; [|apply app_nil_r].
    exfalso. exact (Hp r E Hu).
  - apply filter_filter_implied. intros r Hr.
    apply negb_true_iff. destruct (on_day uid day r) eqn:E; [|reflexivity].
    apply on_day_spec in E. exfalso. apply (Hp r Hr), E.
Qed.

Lemma handle_rows (cmd : Bot.command) (c : clock) (db : database)
    (u : Bot.effective_user) (args : list string) :
  (exists r, user_id r = Bot.id u /\
             trips (fst (Bot.handle float int META_PER_KM cmd c db u args)) =
             (trips db ++ [r])%list) \/
  (exists day,
     trips (fst (Bot.handle float int META_PER_KM cmd c db u args)) =
     filter (fun r => negb (on_day (Bot.id u) day r)) (trips db)) \/
  fst (Bot.handle float int META_PER_KM cmd c db u args) = db.
Proof.
  destruct cmd; cbn [Bot.handle fst]; auto.
  - destruct (add_handler_database float int META_PER_KM c db u args)
      as [->|(t & d & dur & pk & ph & ->)]; [auto|].
    left. eexists. split; [|reflexivity]. reflexivity.
  - unfold Bot.reset_data. destruct (_ || _)%bool; cbn [fst]; [auto|].
    right. left. eexists. reflexivity.
Qed.

(** X17. The users of the bot are isolated: whatever command one user
    sends, with whatever arguments, the replies of [/stats] and
    [/week] to any other user stay what they were. *)
Theorem handlers_isolate_users (cmd : Bot.command) (c c2 : clock)
    (db : database) (u u2 : Bot.effective_user) (args : list string) :
  Bot.id u2 <> Bot.id u ->
  Bot.stats META_PER_KM c2
    (fst (Bot.handle float int META_PER_KM cmd c db u args)) u2 =
    Bot.stats META_PER_KM c2 db u2 /\
  Bot.week_stats META_PER_KM c2
    (fst (Bot.handle float int META_PER_KM cmd c db u args)) u2 =
    Bot.week_stats META_PER_KM c2 db u2.
Proof.
  intros Hu.
  pose proof (other_user_rows db _ (Bot.id u)
                (handle_rows cmd c db u args)) as Hrows.
  unfold Bot.stats, Bot.week_stats, get_daily_stats, get_weekly_stats,
    select_where. split.
  - rewrite Hrows; [reflexivity|].
    intros r Hr E. apply on_day_spec in Hr. destruct Hr as [Hr _]. congruence.
  - destruct (sub_days (now c2) 7) as [w|e]; [|reflexivity]. cbn [bind].
    rewrite Hrows; [reflexivity|].
    intros r Hr E. unfold since in Hr. apply andb_true_iff in Hr.
    destruct Hr as [Hr _]. apply Z.eqb_eq in Hr. congruence.
Qed.

End Isolation.

Lemma handlers_isolate_users_witness :
  Bot.stats 350 today
    (fst (Bot.handle Bot.sample_float Bot.sample_int 350 Bot.CmdReset today
            three_trips Bot.ana ["confirm"%string])) Bot.luis =
    Bot.stats 350 today three_trips Bot.luis /\
  Bot.week_stats 350 today
    (fst (Bot.handle Bot.sample_float Bot.sample_int 350 Bot.CmdReset today
            three_trips Bot.ana ["confirm"%string])) Bot.luis =
    Bot.week_stats 350 today three_trips Bot.luis.
Proof.
  apply (handlers_isolate_users Bot.sample_float Bot.sample_int 350
           Bot.CmdReset today today three_trips Bot.ana Bot.luis
           ["confirm"%string]).
  discriminate.
Defined.

End BotFacts.
